(** * go-btfs analytics agent: a shallow embedding of [analytics/analytics.go]

    The agent samples local counters on a heartbeat, signs a metrics
    record and ships it to a status service, reporting a health alert
    when a step fails.  The Go code is embedded as state-passing
    functions over an explicit agent state; every call to a collaborator
    outside the package (runtime, repo, exchange, gRPC) is answered by an
    oracle of the environment and, for network calls, recorded in a
    trace.  The agent's operations take the state [Initialize] leaves
    as their initial state; [Initialize] itself follows the sample
    environments. *)

From Stdlib Require Import ZArith List String Bool Lia.
Import ListNotations.
Open Scope Z_scope.

(** ** Go values *)

(** [uint64] values are integers in [0, 2^64); arithmetic wraps. *)
Definition uint64_modulus : Z := 2 ^ 64.
Definition is_uint64 (x : Z) : Prop := 0 <= x < uint64_modulus.
Definition wrap64 (x : Z) : Z := x mod uint64_modulus.
Definition sub64 (x y : Z) : Z := wrap64 (x - y).

(** Times are nanoseconds since the zero [time.Time]; a
    [time.Duration] is an [int64] of nanoseconds.  [Time.Sub], which
    [time.Since] uses, saturates at the ends of that range. *)
Definition minDuration : Z := - 2 ^ 63.
Definition maxDuration : Z := 2 ^ 63 - 1.
Definition time_Sub (t u : Z) : Z :=
  Z.max minDuration (Z.min maxDuration (t - u)).

(** A Go [error]: [None] is [nil], [Some msg] carries [err.Error()]. *)
Definition error : Type := option string.

Definition bytes : Type := list Z.

(** A [float64] is only copied around by this package, never computed
    on; it is carried as its IEEE-754 bit pattern. *)
Definition float64 : Type := Z.

(** ** Constants (analytics.go, lines 53-64) *)

Definition kilobyte : Z := 1024.
Definition maxRetryTimes : Z := 3.
(** Durations in nanoseconds, as [time.Duration]. *)
Definition second : Z := 1000000000.
Definition heartBeat : Z := 15 * 60 * second.
Definition dialTimeout : Z := 60 * second.
Definition callTimeout : Z := 5 * second.

(** ** valOrZero and durationToSeconds (lines 67-77) *)

Definition valOrZero (x : Z) : Z :=
  if x <? 0 then 0 else x.

(** [duration.Nanoseconds() / int64(time.Second/time.Nanosecond)] is a
    signed division truncating toward zero; the conversion to [uint64]
    wraps. *)
Definition durationToSeconds (duration : Z) : Z :=
  wrap64 (Z.quot duration (Z.quot second 1)).

(** ** Outcomes and the state monad of the embedding *)

Inductive Outcome (A : Type) : Type :=
| Done (a : A)            (* the call returned [a] *)
| Panic (msg : string)    (* a Go run-time panic; nothing in the package recovers *)
| Diverge.                (* the loop bound of the model was exhausted *)

Arguments Done {A} a.
Arguments Panic {A} msg.
Arguments Diverge {A}.

Definition M (S A : Type) : Type := S -> Outcome A * S.

Definition ret {S A : Type} (a : A) : M S A := fun s => (Done a, s).

Definition bind {S A B : Type} (m : M S A) (k : A -> M S B) : M S B :=
  fun s =>
    match m s with
    | (Done a, s') => k a s'
    | (Panic msg, s') => (Panic msg, s')
    | (Diverge, s') => (Diverge, s')
    end.

Definition panic {S A : Type} (msg : string) : M S A := fun s => (Panic msg, s).
Definition diverge {S A : Type} : M S A := fun s => (Diverge, s).
Definition get {S : Type} : M S S := fun s => (Done s, s).
Definition modify {S : Type} (f : S -> S) : M S unit := fun s => (Done tt, f s).

Declare Scope go_scope.
Delimit Scope go_scope with go.
Notation "x <- m ;; k" := (bind m (fun x => k))
  (at level 100, m at next level, right associativity) : go_scope.
Notation "' p <- m ;; k" := (bind m (fun x => match x with p => k end))
  (at level 100, p pattern, m at next level, right associativity) : go_scope.
Notation "m ;;; k" := (bind m (fun _ => k))
  (at level 100, right associativity) : go_scope.
Open Scope go_scope.

(** ** The back-off library used by [retry]

    [github.com/cenkalti/backoff] is a dependency, not part of this
    package.  The pieces [retry] uses are modelled after the library's
    published code.  A policy may read the clock, so the methods of the
    [BackOff] interface run in the state monad:

    - [Stop] is the duration [-1];
    - [NewExponentialBackOff()] builds a policy with the default
      intervals (500ms, multiplied by 1.5 up to 60s), a
      [MaxElapsedTime] of 15 minutes and the system clock, and resets
      it.  [Reset] stores the clock's reading as start time;
      [NextBackOff] answers [Stop] once more than [MaxElapsedTime] has
      elapsed since then:
<<
      func (b *ExponentialBackOff) NextBackOff() time.Duration {
        if b.MaxElapsedTime != 0 && b.GetElapsedTime() > b.MaxElapsedTime {
          return Stop
        }
        defer b.incrementCurrentInterval()
        return getRandomValueFromInterval(..., b.currentInterval)
      }
>>
      The library randomises each delay within +-50% (still positive);
      the model answers the interval itself, and delays are not slept:
      the time they take shows in the clock's next reading;
    - [WithMaxRetries(b, max)] wraps [b]:
<<
      func (b *backOffTries) NextBackOff() time.Duration {
        if b.maxTries > 0 {
          if b.maxTries <= b.numTries { return Stop }
          b.numTries++
        }
        return b.delegate.NextBackOff()
      }
>>
    - [Retry(o, b)] resets [b] and loops:
<<
      for {
        if err = operation(); err == nil { return nil }
        if next = b.NextBackOff(); next == Stop { return err }
        sleep(next)
      }
>>
    The [for] loop has no bound of its own; the model runs it for at
    most [fuel] iterations and answers [Diverge] beyond. *)
Module backoff.

Definition Stop : Z := -1.

Class BackOff (S B : Type) : Type := {
  NextBackOff : B -> M S (Z * B);
  Reset : B -> M S B
}.

Record ExponentialBackOff (S : Type) : Type := {
  InitialInterval : Z;
  MaxInterval : Z;
  MaxElapsedTime : Z;
  Clock : M S Z;
  currentInterval : Z;
  startTime : Z
}.
Arguments InitialInterval {S} _.
Arguments MaxInterval {S} _.
Arguments MaxElapsedTime {S} _.
Arguments Clock {S} _.
Arguments currentInterval {S} _.
Arguments startTime {S} _.

Definition DefaultInitialInterval : Z := 500 * 1000000.
Definition DefaultMaxInterval : Z := 60 * second.
Definition DefaultMaxElapsedTime : Z := 15 * 60 * second.

(** Multiplier 1.5: the interval is capped once [1.5 * current]
    would reach [MaxInterval]. *)
Definition incrementCurrentInterval {S : Type} (b : ExponentialBackOff S)
  : ExponentialBackOff S :=
  {| InitialInterval := InitialInterval b;
     MaxInterval := MaxInterval b;
     MaxElapsedTime := MaxElapsedTime b;
     Clock := Clock b;
     currentInterval :=
       if MaxInterval b * 2 <=? currentInterval b * 3
       then MaxInterval b
       else currentInterval b * 3 / 2;
     startTime := startTime b |}.

(** [b.Clock.Now().Sub(b.startTime)] *)
Definition GetElapsedTime {S : Type} (b : ExponentialBackOff S) : M S Z :=
  now <- Clock b ;;
  ret (time_Sub now (startTime b)).

#[global] Instance ExponentialBackOff_BackOff {S : Type}
  : BackOff S (ExponentialBackOff S) := {
  NextBackOff b :=
    if MaxElapsedTime b =? 0 then
      ret (currentInterval b, incrementCurrentInterval b)
    else
      elapsed <- GetElapsedTime b ;;
      if elapsed >? MaxElapsedTime b then ret (Stop, b)
      else ret (currentInterval b, incrementCurrentInterval b);
  Reset b :=
    now <- Clock b ;;
    ret {| InitialInterval := InitialInterval b;
           MaxInterval := MaxInterval b;
           MaxElapsedTime := MaxElapsedTime b;
           Clock := Clock b;
           currentInterval := InitialInterval b;
           startTime := now |}
}.

(** [NewExponentialBackOff()] with [clock] as the system clock. *)
Definition NewExponentialBackOff {S : Type} (clock : M S Z)
  : M S (ExponentialBackOff S) :=
  Reset {| InitialInterval := DefaultInitialInterval;
           MaxInterval := DefaultMaxInterval;
           MaxElapsedTime := DefaultMaxElapsedTime;
           Clock := clock;
           currentInterval := 0;
           startTime := 0 |}.

Record backOffTries (B : Type) : Type := {
  delegate : B;
  maxTries : Z;
  numTries : Z
}.
Arguments delegate {B} _.
Arguments maxTries {B} _.
Arguments numTries {B} _.

Definition WithMaxRetries {B : Type} (b : B) (max : Z) : backOffTries B :=
  {| delegate := b; maxTries := max; numTries := 0 |}.

#[global] Instance backOffTries_BackOff {S B : Type} `{BackOff S B}
  : BackOff S (backOffTries B) := {
  NextBackOff b :=
    if 0 <? maxTries b then
      if maxTries b <=? numTries b then ret (Stop, b)
      else
        '(d, dg) <- NextBackOff (delegate b) ;;
        ret (d, {| delegate := dg; maxTries := maxTries b;
                   numTries := wrap64 (numTries b + 1) |})
    else
      '(d, dg) <- NextBackOff (delegate b) ;;
      ret (d, {| delegate := dg; maxTries := maxTries b; numTries := numTries b |});
  Reset b :=
    dg <- Reset (delegate b) ;;
    ret {| delegate := dg; maxTries := maxTries b; numTries := 0 |}
}.

Fixpoint RetryLoop {S B : Type} `{BackOff S B}
    (fuel : nat) (operation : M S error) (b : B) : M S error :=
  match fuel with
  | O => diverge
  | Datatypes.S fuel' =>
      err <- operation ;;
      match err with
      | None => ret None
      | Some _ =>
          '(next, b') <- NextBackOff b ;;
          if next =? Stop then ret err
          else RetryLoop fuel' operation b'
      end
  end.

Definition Retry {S B : Type} `{BackOff S B}
    (fuel : nat) (operation : M S error) (b : B) : M S error :=
  b0 <- Reset b ;;
  RetryLoop fuel operation b0.

End backoff.

(** ** retry (lines 273-275)

    [now] is the system clock the back-off policy reads.  The value
    [backoff.Retry] returns is dropped. *)
Definition retry {S : Type} (now : M S Z) (fuel : nat) (f : M S error) : M S unit :=
  b <- backoff.NewExponentialBackOff now ;;
  backoff.Retry fuel f (backoff.WithMaxRetries b maxRetryTimes) ;;;
  ret tt.

(** A clock whose reading is a function of the state and which leaves
    the state alone. *)
Definition read {S : Type} (clock : S -> Z) : M S Z :=
  fun s => (Done (clock s), s).

(** An operation instrumented with a count of its invocations. *)
Definition counted {S : Type} (op : M S error) : M (S * nat) error :=
  fun sn =>
    let (r, s') := op (fst sn) in (r, (s', Datatypes.S (snd sn))).

(** ** Data model (lines 23-47) *)

(** [dataCollection], with the embedded [programInfo] fields promoted.
    [startTime] is a reading of the clock; the [node] pointer is the
    [IpfsNode] below, shared with the host. *)
Record dataCollection : Type := {
  startTime : Z;
  NodeID : string;
  HVal : string;
  CPUInfo : string;
  BTFSVersion : string;
  OSType : string;
  ArchType : string;
  UpTime : Z;
  StorageUsed : Z;
  MemUsed : Z;
  CPUUsed : float64;
  Upload : Z;
  Download : Z;
  TotalUp : Z;
  TotalDown : Z;
  BlocksUp : Z;
  BlocksDown : Z;
  NumPeers : Z
}.

(** [new(dataCollection)]: every field at its zero value. *)
Definition new_dataCollection : dataCollection :=
  {| startTime := 0; NodeID := ""; HVal := ""; CPUInfo := "";
     BTFSVersion := ""; OSType := ""; ArchType := "";
     UpTime := 0; StorageUsed := 0; MemUsed := 0; CPUUsed := 0;
     Upload := 0; Download := 0; TotalUp := 0; TotalDown := 0;
     BlocksUp := 0; BlocksDown := 0; NumPeers := 0 |}.

(** ** Collaborators outside the package *)

(** [bitswap.Stat], the fields [update] reads. *)
Record Stat : Type := {
  DataSent : Z;
  DataReceived : Z;
  BlocksSent : Z;
  BlocksReceived : Z;
  Peers : list string
}.

(** The configuration fields the agent reads:
    [Experimental.Analytics], [Services.StatusServerDomain],
    [Datastore.StorageMax]. *)
Record Config : Type := {
  Analytics : bool;
  StatusServerDomain : string;
  StorageMax : string
}.

(** What [dc.node.Exchange] holds: a [*bitswap.Bitswap] or another
    implementation of the exchange interface. *)
Inductive Exchange : Type :=
| Bitswap
| OtherExchange.

(** A private key is identified by its key material. *)
Definition PrivKey : Type := bytes.

Record IpfsNode : Type := {
  NodeExchange : Exchange;
  PrivateKey : option PrivKey
}.

(** The protobuf record [node.Node] filled by [getPayload]; its
    [Settings] sub-record is always empty and left out. *)
Record Node : Type := {
  nd_TimeCreated : Z;
  nd_NodeId : string;
  nd_BtfsVersion : string;
  nd_ArchType : string;
  nd_BlocksDown : Z;
  nd_BlocksUp : Z;
  nd_CpuInfo : string;
  nd_CpuUsed : float64;
  nd_Download : Z;
  nd_MemoryUsed : Z;
  nd_OsType : string;
  nd_PeersConnected : Z;
  nd_StorageUsed : Z;
  nd_UpTime : Z;
  nd_Upload : Z;
  nd_TotalUpload : Z;
  nd_TotalDownload : Z;
  nd_StorageVolumeCap : Z
}.

(** [pb.SignedMetrics] and [pb.NodeHealth]. *)
Record SignedMetrics : Type := {
  Payload : bytes;
  Signature : bytes;
  PublicKey : bytes
}.

Record NodeHealth : Type := {
  nh_BtfsVersion : string;
  nh_FailurePoint : string;
  nh_NodeId : string;
  nh_TimeCreated : Z
}.

(** The environment answers every call that leaves the package.  Calls
    whose answer may change from one call to the next take the number of
    earlier calls of that kind; a Go pointer result is an [option]
    ([None] is [nil]). *)
Record Env : Type := {
  env_ReadMemStats : nat -> Z;                       (* m.HeapAlloc *)
  env_Now : nat -> Z;                                (* time.Now / time.Since *)
  env_cpu_Percent : nat -> list float64 * error;
  env_GetStorageUsage : nat -> Z * error;
  env_Stat : nat -> option Stat * error;             (* bs.Stat() *)
  env_Config : nat -> option Config * error;         (* dc.node.Repo.Config() *)
  env_DialContext : nat -> error;
  env_UpdateMetrics : nat -> error;
  env_CollectHealth : nat -> error;
  env_proto_Marshal : Node -> bytes * error;
  env_Sign : PrivKey -> bytes -> bytes * error;
  env_MarshalPublicKey : PrivKey -> bytes * error;
  env_ParseBytes : string -> Z * error               (* humanize.ParseBytes *)
}.

(** What the status service and the transport observe. *)
Inductive Event : Type :=
| EvDial (addr : string)
| EvUpdateMetrics (sm : SignedMetrics)
| EvCollectHealth (n : NodeHealth)
| EvClose.

(** How many calls of each kind were made so far. *)
Record Calls : Type := {
  n_ReadMemStats : nat;
  n_Now : nat;
  n_cpu_Percent : nat;
  n_GetStorageUsage : nat;
  n_Stat : nat;
  n_Config : nat;
  n_DialContext : nat;
  n_UpdateMetrics : nat;
  n_CollectHealth : nat
}.

Definition no_calls : Calls :=
  {| n_ReadMemStats := 0; n_Now := 0; n_cpu_Percent := 0;
     n_GetStorageUsage := 0; n_Stat := 0; n_Config := 0;
     n_DialContext := 0; n_UpdateMetrics := 0; n_CollectHealth := 0 |}.

(** The agent's state: the [dataCollection] object behind the receiver
    pointer [dc], the call counts, and the trace of network events
    (oldest first). *)
Record Agent : Type := {
  dc : dataCollection;
  calls : Calls;
  trace : list Event
}.

Definition start (d : dataCollection) : Agent :=
  {| dc := d; calls := no_calls; trace := [] |}.

Definition set_dc (f : dataCollection -> dataCollection) (a : Agent) : Agent :=
  {| dc := f (dc a); calls := calls a; trace := trace a |}.
Definition set_calls (f : Calls -> Calls) (a : Agent) : Agent :=
  {| dc := dc a; calls := f (calls a); trace := trace a |}.
Definition emit (e : Event) : M Agent unit :=
  modify (fun a => {| dc := dc a; calls := calls a; trace := trace a ++ [e] |}).

(** One call of a counted kind: read the count, bump it, answer from
    the oracle. *)
Definition call {A : Type} (count : Calls -> nat) (bump : Calls -> Calls)
    (oracle : nat -> A) : M Agent A :=
  a <- get ;;
  modify (set_calls bump) ;;;
  ret (oracle (count (calls a))).

Definition bump_ReadMemStats (c : Calls) : Calls :=
  {| n_ReadMemStats := S (n_ReadMemStats c); n_Now := n_Now c;
     n_cpu_Percent := n_cpu_Percent c; n_GetStorageUsage := n_GetStorageUsage c;
     n_Stat := n_Stat c; n_Config := n_Config c; n_DialContext := n_DialContext c;
     n_UpdateMetrics := n_UpdateMetrics c; n_CollectHealth := n_CollectHealth c |}.
Definition bump_Now (c : Calls) : Calls :=
  {| n_ReadMemStats := n_ReadMemStats c; n_Now := S (n_Now c);
     n_cpu_Percent := n_cpu_Percent c; n_GetStorageUsage := n_GetStorageUsage c;
     n_Stat := n_Stat c; n_Config := n_Config c; n_DialContext := n_DialContext c;
     n_UpdateMetrics := n_UpdateMetrics c; n_CollectHealth := n_CollectHealth c |}.
Definition bump_cpu_Percent (c : Calls) : Calls :=
  {| n_ReadMemStats := n_ReadMemStats c; n_Now := n_Now c;
     n_cpu_Percent := S (n_cpu_Percent c); n_GetStorageUsage := n_GetStorageUsage c;
     n_Stat := n_Stat c; n_Config := n_Config c; n_DialContext := n_DialContext c;
     n_UpdateMetrics := n_UpdateMetrics c; n_CollectHealth := n_CollectHealth c |}.
Definition bump_GetStorageUsage (c : Calls) : Calls :=
  {| n_ReadMemStats := n_ReadMemStats c; n_Now := n_Now c;
     n_cpu_Percent := n_cpu_Percent c; n_GetStorageUsage := S (n_GetStorageUsage c);
     n_Stat := n_Stat c; n_Config := n_Config c; n_DialContext := n_DialContext c;
     n_UpdateMetrics := n_UpdateMetrics c; n_CollectHealth := n_CollectHealth c |}.
Definition bump_Stat (c : Calls) : Calls :=
  {| n_ReadMemStats := n_ReadMemStats c; n_Now := n_Now c;
     n_cpu_Percent := n_cpu_Percent c; n_GetStorageUsage := n_GetStorageUsage c;
     n_Stat := S (n_Stat c); n_Config := n_Config c; n_DialContext := n_DialContext c;
     n_UpdateMetrics := n_UpdateMetrics c; n_CollectHealth := n_CollectHealth c |}.
Definition bump_Config (c : Calls) : Calls :=
  {| n_ReadMemStats := n_ReadMemStats c; n_Now := n_Now c;
     n_cpu_Percent := n_cpu_Percent c; n_GetStorageUsage := n_GetStorageUsage c;
     n_Stat := n_Stat c; n_Config := S (n_Config c); n_DialContext := n_DialContext c;
     n_UpdateMetrics := n_UpdateMetrics c; n_CollectHealth := n_CollectHealth c |}.
Definition bump_DialContext (c : Calls) : Calls :=
  {| n_ReadMemStats := n_ReadMemStats c; n_Now := n_Now c;
     n_cpu_Percent := n_cpu_Percent c; n_GetStorageUsage := n_GetStorageUsage c;
     n_Stat := n_Stat c; n_Config := n_Config c; n_DialContext := S (n_DialContext c);
     n_UpdateMetrics := n_UpdateMetrics c; n_CollectHealth := n_CollectHealth c |}.
Definition bump_UpdateMetrics (c : Calls) : Calls :=
  {| n_ReadMemStats := n_ReadMemStats c; n_Now := n_Now c;
     n_cpu_Percent := n_cpu_Percent c; n_GetStorageUsage := n_GetStorageUsage c;
     n_Stat := n_Stat c; n_Config := n_Config c; n_DialContext := n_DialContext c;
     n_UpdateMetrics := S (n_UpdateMetrics c); n_CollectHealth := n_CollectHealth c |}.
Definition bump_CollectHealth (c : Calls) : Calls :=
  {| n_ReadMemStats := n_ReadMemStats c; n_Now := n_Now c;
     n_cpu_Percent := n_cpu_Percent c; n_GetStorageUsage := n_GetStorageUsage c;
     n_Stat := n_Stat c; n_Config := n_Config c; n_DialContext := n_DialContext c;
     n_UpdateMetrics := n_UpdateMetrics c; n_CollectHealth := S (n_CollectHealth c) |}.

(** Go run-time panics the package can raise. *)
Definition nil_dereference : string :=
  "invalid memory address or nil pointer dereference".
Definition index_out_of_range : string := "index out of range".

Definition deref {A : Type} (p : option A) : M Agent A :=
  match p with
  | Some x => ret x
  | None => panic nil_dereference
  end.

Definition index0 {A : Type} (l : list A) : M Agent A :=
  match l with
  | x :: _ => ret x
  | [] => panic index_out_of_range
  end.

(** ** The sampler's assignments (lines 144-151)

    All right-hand sides read the object as it was before the block:
    [Upload] and [Download] are computed from the stored totals before
    those are overwritten. *)
Definition applyStat (st : Stat) (d : dataCollection) : dataCollection :=
  {| startTime := startTime d; NodeID := NodeID d; HVal := HVal d;
     CPUInfo := CPUInfo d; BTFSVersion := BTFSVersion d;
     OSType := OSType d; ArchType := ArchType d;
     UpTime := UpTime d; StorageUsed := StorageUsed d;
     MemUsed := MemUsed d; CPUUsed := CPUUsed d;
     Upload := valOrZero (sub64 (DataSent st) (TotalUp d)) / kilobyte;
     Download := valOrZero (sub64 (DataReceived st) (TotalDown d)) / kilobyte;
     TotalUp := DataSent st / kilobyte;
     TotalDown := DataReceived st / kilobyte;
     BlocksUp := BlocksSent st;
     BlocksDown := BlocksReceived st;
     NumPeers := Z.of_nat (List.length (Peers st)) |}.

(** Field assignments of the first half of [update] (lines 121-130). *)
Definition set_UpTime (v : Z) (d : dataCollection) : dataCollection :=
  {| startTime := startTime d; NodeID := NodeID d; HVal := HVal d;
     CPUInfo := CPUInfo d; BTFSVersion := BTFSVersion d;
     OSType := OSType d; ArchType := ArchType d;
     UpTime := v; StorageUsed := StorageUsed d;
     MemUsed := MemUsed d; CPUUsed := CPUUsed d;
     Upload := Upload d; Download := Download d;
     TotalUp := TotalUp d; TotalDown := TotalDown d;
     BlocksUp := BlocksUp d; BlocksDown := BlocksDown d;
     NumPeers := NumPeers d |}.
Definition set_CPUUsed (v : float64) (d : dataCollection) : dataCollection :=
  {| startTime := startTime d; NodeID := NodeID d; HVal := HVal d;
     CPUInfo := CPUInfo d; BTFSVersion := BTFSVersion d;
     OSType := OSType d; ArchType := ArchType d;
     UpTime := UpTime d; StorageUsed := StorageUsed d;
     MemUsed := MemUsed d; CPUUsed := v;
     Upload := Upload d; Download := Download d;
     TotalUp := TotalUp d; TotalDown := TotalDown d;
     BlocksUp := BlocksUp d; BlocksDown := BlocksDown d;
     NumPeers := NumPeers d |}.
Definition set_MemUsed (v : Z) (d : dataCollection) : dataCollection :=
  {| startTime := startTime d; NodeID := NodeID d; HVal := HVal d;
     CPUInfo := CPUInfo d; BTFSVersion := BTFSVersion d;
     OSType := OSType d; ArchType := ArchType d;
     UpTime := UpTime d; StorageUsed := StorageUsed d;
     MemUsed := v; CPUUsed := CPUUsed d;
     Upload := Upload d; Download := Download d;
     TotalUp := TotalUp d; TotalDown := TotalDown d;
     BlocksUp := BlocksUp d; BlocksDown := BlocksDown d;
     NumPeers := NumPeers d |}.
Definition set_StorageUsed (v : Z) (d : dataCollection) : dataCollection :=
  {| startTime := startTime d; NodeID := NodeID d; HVal := HVal d;
     CPUInfo := CPUInfo d; BTFSVersion := BTFSVersion d;
     OSType := OSType d; ArchType := ArchType d;
     UpTime := UpTime d; StorageUsed := v;
     MemUsed := MemUsed d; CPUUsed := CPUUsed d;
     Upload := Upload d; Download := Download d;
     TotalUp := TotalUp d; TotalDown := TotalDown d;
     BlocksUp := BlocksUp d; BlocksDown := BlocksDown d;
     NumPeers := NumPeers d |}.

(** An open connection, named by the dial that opened it. *)
Inductive ClientConn : Type := Conn (id : nat).

(** ** The agent (lines 117-303) *)

Section AgentOperations.

Variable env : Env.
Variable node : IpfsNode.
(** Bound on the iterations of each [backoff.Retry] loop. *)
Variable fuel : nat.

Definition ReadMemStats : M Agent Z :=
  call n_ReadMemStats bump_ReadMemStats (env_ReadMemStats env).
Definition Now : M Agent Z :=
  call n_Now bump_Now (env_Now env).
Definition cpu_Percent : M Agent (list float64 * error) :=
  call n_cpu_Percent bump_cpu_Percent (env_cpu_Percent env).
Definition GetStorageUsage : M Agent (Z * error) :=
  call n_GetStorageUsage bump_GetStorageUsage (env_GetStorageUsage env).
Definition bs_Stat : M Agent (option Stat * error) :=
  call n_Stat bump_Stat (env_Stat env).
Definition Repo_Config : M Agent (option Config * error) :=
  call n_Config bump_Config (env_Config env).

(** [grpc.DialContext], [client.UpdateMetrics], [client.CollectHealth]:
    the attempt is recorded, then the environment decides. *)
Definition DialContext (addr : string) : M Agent (option ClientConn * error) :=
  a <- get ;;
  emit (EvDial addr) ;;;
  err <- call n_DialContext bump_DialContext (env_DialContext env) ;;
  match err with
  | Some _ => ret (None, err)
  | None => ret (Some (Conn (n_DialContext (calls a))), None)
  end.
Definition UpdateMetrics (sm : SignedMetrics) : M Agent error :=
  emit (EvUpdateMetrics sm) ;;;
  call n_UpdateMetrics bump_UpdateMetrics (env_UpdateMetrics env).
Definition CollectHealth (n : NodeHealth) : M Agent error :=
  emit (EvCollectHealth n) ;;;
  call n_CollectHealth bump_CollectHealth (env_CollectHealth env).
Definition conn_Close (conn : option ClientConn) : M Agent unit :=
  emit EvClose.

(** lines 154-166 *)
Definition getGrpcConn : M Agent (option ClientConn * error) :=
  '(config, err) <- Repo_Config ;;
  match err with
  | Some e => ret (None, Some ("failed to load config: " ++ e)%string)
  | None =>
      c <- deref config ;;
      '(conn, err) <- DialContext (StatusServerDomain c) ;;
      match err with
      | Some e =>
          ret (None, Some ("failed to connect to status server: " ++ e)%string)
      | None => ret (conn, None)
      end
  end.

(** lines 283-303; the deferred [conn.Close()] runs on return. *)
Definition doReportHealthAlert (failurePoint : string) : M Agent error :=
  '(conn, err) <- getGrpcConn ;;
  match err with
  | Some _ => ret err
  | None =>
      a <- get ;;
      now <- Now ;;
      let n := {| nh_BtfsVersion := BTFSVersion (dc a);
                  nh_FailurePoint := failurePoint;
                  nh_NodeId := NodeID (dc a);
                  nh_TimeCreated := now |} in
      err <- CollectHealth n ;;
      conn_Close conn ;;;
      ret err
  end.

(** lines 277-281 *)
Definition reportHealthAlert (failurePoint : string) : M Agent unit :=
  retry Now fuel (doReportHealthAlert failurePoint).

(** lines 117-152.  [update] has no result: after a failed statistics
    read it reports the alert and returns to its caller like after a
    successful one. *)
Definition update : M Agent unit :=
  HeapAlloc <- ReadMemStats ;;
  a <- get ;;
  now <- Now ;;
  modify (set_dc (set_UpTime (durationToSeconds (time_Sub now (startTime (dc a)))))) ;;;
  '(cpus, e) <- cpu_Percent ;;
  match e with
  | None => c <- index0 cpus ;; modify (set_dc (set_CPUUsed c))
  | Some _ => ret tt
  end ;;;
  modify (set_dc (set_MemUsed (HeapAlloc / kilobyte))) ;;;
  '(storage, e) <- GetStorageUsage ;;
  match e with
  | None => modify (set_dc (set_StorageUsed (storage / kilobyte)))
  | Some _ => ret tt
  end ;;;
  match NodeExchange node with
  | OtherExchange =>
      reportHealthAlert
        "failed to perform dc.node.Exchange.(*bitswap.Bitswap) type assertion"
  | Bitswap =>
      '(st, err) <- bs_Stat ;;
      match err with
      | Some e =>
          reportHealthAlert ("failed to perform bs.Stat() call: " ++ e)%string
      | None =>
          st <- deref st ;;
          modify (set_dc (applyStat st))
      end
  end.

(** lines 220-251 *)
Definition getPayload : M Agent (bytes * error) :=
  a <- get ;;
  now <- Now ;;
  '(config, err) <- Repo_Config ;;
  cap <- match err with
         | None =>
             c <- deref config ;;
             let (storageMax, err) := env_ParseBytes env (StorageMax c) in
             match err with
             | None => ret storageMax
             | Some _ => ret 0
             end
         | Some _ => ret 0
         end ;;
  let d := dc a in
  let nd := {| nd_TimeCreated := now;
               nd_NodeId := NodeID d;
               nd_BtfsVersion := BTFSVersion d;
               nd_ArchType := ArchType d;
               nd_BlocksDown := BlocksDown d;
               nd_BlocksUp := BlocksUp d;
               nd_CpuInfo := CPUInfo d;
               nd_CpuUsed := CPUUsed d;
               nd_Download := Download d;
               nd_MemoryUsed := MemUsed d;
               nd_OsType := OSType d;
               nd_PeersConnected := NumPeers d;
               nd_StorageUsed := StorageUsed d;
               nd_UpTime := UpTime d;
               nd_Upload := Upload d;
               nd_TotalUpload := TotalUp d;
               nd_TotalDownload := TotalDown d;
               nd_StorageVolumeCap := cap |} in
  let (bytes, err) := env_proto_Marshal env nd in
  match err with
  | Some _ => ret ([], err)
  | None => ret (bytes, None)
  end.

(** lines 174-218.  In the private-key branch the returned [err] is
    the variable assigned by [getPayload], as in the source. *)
Definition doSendData : M Agent error :=
  update ;;;
  '(payload, err) <- getPayload ;;
  match err with
  | Some e =>
      reportHealthAlert
        ("failed to marshal dataCollection object to a byte array: " ++ e)%string ;;;
      ret err
  | None =>
      match PrivateKey node with
      | None =>
          reportHealthAlert "node's private key is null" ;;;
          ret err
      | Some key =>
          let (signature, err) := env_Sign env key payload in
          match err with
          | Some e =>
              reportHealthAlert
                ("failed to sign raw data with node private key: " ++ e)%string ;;;
              ret err
          | None =>
              let (publicKey, err) := env_MarshalPublicKey env key in
              match err with
              | Some e =>
                  reportHealthAlert
                    ("failed to marshal node public key: " ++ e)%string ;;;
                  ret err
              | None =>
                  let sm := {| Payload := payload;
                               Signature := signature;
                               PublicKey := publicKey |} in
                  '(conn, err) <- getGrpcConn ;;
                  match err with
                  | Some _ => ret err
                  | None =>
                      err <- UpdateMetrics sm ;;
                      conn_Close conn ;;;
                      match err with
                      | Some _ => ret err
                      | None => ret None
                      end
                  end
              end
          end
      end
  end.

(** lines 168-172 *)
Definition sendData : M Agent unit :=
  retry Now fuel doSendData.

(** One pass of the consent check (lines 258-261 and 264-269): the
    error of [Repo.Config()] is discarded and [config] dereferenced. *)
Definition heartbeat : M Agent unit :=
  '(config, _) <- Repo_Config ;;
  c <- deref config ;;
  if Analytics c then sendData else ret tt.

Fixpoint tickLoop (ticks : nat) : M Agent unit :=
  match ticks with
  | O => ret tt
  | S ticks' => heartbeat ;;; tickLoop ticks'
  end.

(** lines 253-271.  The Go loop never returns; [collectionAgent ticks]
    is the agent from its start up to and including its [ticks]-th
    heartbeat, [Done] meaning it is waiting for the next one. *)
Definition collectionAgent (ticks : nat) : M Agent unit :=
  heartbeat ;;;
  tickLoop ticks.

End AgentOperations.

(** ** Observations on a trace *)

Definition is_Dial (e : Event) : bool :=
  match e with EvDial _ => true | _ => false end.
Definition is_UpdateMetrics (e : Event) : bool :=
  match e with EvUpdateMetrics _ => true | _ => false end.
Definition is_CollectHealth (e : Event) : bool :=
  match e with EvCollectHealth _ => true | _ => false end.

Definition count_events (p : Event -> bool) (t : list Event) : nat :=
  List.length (filter p t).

(** The failure points of the health alerts sent, oldest first. *)
Fixpoint failure_points (t : list Event) : list string :=
  match t with
  | [] => []
  | EvCollectHealth n :: t' => nh_FailurePoint n :: failure_points t'
  | _ :: t' => failure_points t'
  end.

(** Between [a] and [a'] the transport was not used: no event, no dial,
    no RPC. *)
Definition transport_untouched (a a' : Agent) : Prop :=
  trace a' = trace a
  /\ n_DialContext (calls a') = n_DialContext (calls a)
  /\ n_UpdateMetrics (calls a') = n_UpdateMetrics (calls a)
  /\ n_CollectHealth (calls a') = n_CollectHealth (calls a).

(** ** Sample environments and nodes *)

Definition sample_Config (consent : bool) : Config :=
  {| Analytics := consent;
     StatusServerDomain := "status.example:50051";
     StorageMax := "10GB" |}.

Definition sample_Stat (sent received : Z) : Stat :=
  {| DataSent := sent; DataReceived := received;
     BlocksSent := 7; BlocksReceived := 9; Peers := ["peerA"; "peerB"]%string |}.

(** An environment in which the host reads succeed, the payload
    functions are total, and the statistics read, the configuration read
    and the three network calls answer as given. *)
Definition mkEnv
    (stat : nat -> option Stat * error)
    (config : nat -> option Config * error)
    (dial metrics health : nat -> error) : Env :=
  {| env_ReadMemStats := fun _ => 8 * 1024 * 1024;
     env_Now := fun k => 60 * second * Z.of_nat (S k);
     env_cpu_Percent := fun _ => ([42], None);
     env_GetStorageUsage := fun _ => (5 * 1024, None);
     env_Stat := stat;
     env_Config := config;
     env_DialContext := dial;
     env_UpdateMetrics := metrics;
     env_CollectHealth := health;
     env_proto_Marshal := fun nd =>
       ([nd_Upload nd; nd_Download nd; nd_TotalUpload nd; nd_TotalDownload nd], None);
     env_Sign := fun key payload => (key ++ payload, None);
     env_MarshalPublicKey := fun key => (key, None);
     env_ParseBytes := fun _ => (10 * 1000 * 1000 * 1000, None) |}.

Definition always {A : Type} (x : A) : nat -> A := fun _ => x.

(** [env] with the clock's readings replaced. *)
Definition with_Now (now : nat -> Z) (env : Env) : Env :=
  {| env_ReadMemStats := env_ReadMemStats env;
     env_Now := now;
     env_cpu_Percent := env_cpu_Percent env;
     env_GetStorageUsage := env_GetStorageUsage env;
     env_Stat := env_Stat env;
     env_Config := env_Config env;
     env_DialContext := env_DialContext env;
     env_UpdateMetrics := env_UpdateMetrics env;
     env_CollectHealth := env_CollectHealth env;
     env_proto_Marshal := env_proto_Marshal env;
     env_Sign := env_Sign env;
     env_MarshalPublicKey := env_MarshalPublicKey env;
     env_ParseBytes := env_ParseBytes env |}.

Definition node_with_key : IpfsNode :=
  {| NodeExchange := Bitswap; PrivateKey := Some [1; 2; 3] |}.
Definition node_without_key : IpfsNode :=
  {| NodeExchange := Bitswap; PrivateKey := None |}.
Definition node_other_exchange : IpfsNode :=
  {| NodeExchange := OtherExchange; PrivateKey := Some [1; 2; 3] |}.

(** [dc] as [Initialize] leaves it for node "N1", version "1.0". *)
Definition dc_N1 : dataCollection :=
  {| startTime := 0; NodeID := "N1"; HVal := "h"; CPUInfo := "cpu";
     BTFSVersion := "1.0"; OSType := "linux"; ArchType := "amd64";
     UpTime := 0; StorageUsed := 0; MemUsed := 0; CPUUsed := 0;
     Upload := 0; Download := 0; TotalUp := 0; TotalDown := 0;
     BlocksUp := 0; BlocksDown := 0; NumPeers := 0 |}.

(** [d] with the stored totals replaced. *)
Definition with_totals (up down : Z) (d : dataCollection) : dataCollection :=
  {| startTime := startTime d; NodeID := NodeID d; HVal := HVal d;
     CPUInfo := CPUInfo d; BTFSVersion := BTFSVersion d;
     OSType := OSType d; ArchType := ArchType d;
     UpTime := UpTime d; StorageUsed := StorageUsed d;
     MemUsed := MemUsed d; CPUUsed := CPUUsed d;
     Upload := Upload d; Download := Download d;
     TotalUp := up; TotalDown := down;
     BlocksUp := BlocksUp d; BlocksDown := BlocksDown d;
     NumPeers := NumPeers d |}.

(** Operations used to exercise [retry]: one that fails until its
    state reaches [2], one that always fails. *)
Definition flaky : M nat error :=
  fun n => (Done (if (n <? 2)%nat then Some "unavailable"%string else None), S n).
Definition always_fails : M unit error :=
  fun s => (Done (Some "unavailable"%string), s).

(** The [Upload] values of [n] successive sampling steps. *)
Fixpoint sampleUploads (env : Env) (node : IpfsNode) (fuel : nat)
    (n : nat) (a : Agent) : list Z :=
  match n with
  | O => []
  | S n' =>
      let a' := snd (update env node fuel a) in
      Upload (dc a') :: sampleUploads env node fuel n' a'
  end.

(** [cpu.Percent] answered an error or at least one value, so that
    [cpus[0]] is in range. *)
Definition cpu_Percent_indexable (r : list float64 * error) : bool :=
  match r with
  | ([], None) => false
  | _ => true
  end.

(** The stored totals of [d'] are those of [d]. *)
Definition same_totals (d d' : dataCollection) : Prop :=
  TotalUp d' = TotalUp d /\ TotalDown d' = TotalDown d.

(** A computation that never writes to the [dataCollection] object. *)
Definition keeps_dc {A : Type} (m : M Agent A) : Prop :=
  forall a, dc (snd (m a)) = dc a.

(** Conditions on the environment used by the statements below. *)
Definition config_readable (env : Env) : Prop :=
  forall k, exists c, env_Config env k = (Some c, None).
Definition network_up (env : Env) : Prop :=
  forall k, env_DialContext env k = None
            /\ env_UpdateMetrics env k = None
            /\ env_CollectHealth env k = None.
Definition build_succeeds (env : Env) (key : PrivKey) : Prop :=
  (forall nd, snd (env_proto_Marshal env nd) = None)
  /\ (forall payload, snd (env_Sign env key payload) = None)
  /\ snd (env_MarshalPublicKey env key) = None.
Definition consent_withheld (env : Env) : Prop :=
  forall k, exists c e, env_Config env k = (Some c, e) /\ Analytics c = false.

(** No collaborator answers a nil pointer together with a nil error,
    [Repo.Config()] never answers a nil pointer at all, and [cpus[0]]
    is always in range. *)
Definition pointers_valid (env : Env) : Prop :=
  (forall k, fst (env_Config env k) <> None)
  /\ (forall k, env_Stat env k <> (None, None))
  /\ (forall k, cpu_Percent_indexable (env_cpu_Percent env k) = true).

(** A computation that returns normally from every state. *)
Definition returns {A : Type} (m : M Agent A) : Prop :=
  forall a, exists x a', m a = (Done x, a').

(** The statistics read of the next [update] fails: the exchange is not
    a bitswap, or [bs.Stat()] answers an error. *)
Definition stat_read_fails (env : Env) (node : IpfsNode) (a : Agent) : Prop :=
  NodeExchange node = OtherExchange
  \/ exists e, snd (env_Stat env (n_Stat (calls a))) = Some e.

(** Sample environments: everything works and the exchange reports
    1500 bytes sent, 2600 received ... *)
Definition env_healthy : Env :=
  mkEnv (always (Some (sample_Stat 1500 2600), None))
        (always (Some (sample_Config true), None))
        (always None) (always None) (always None).
(** ... the exchange counter was reset and reports 5 bytes sent ... *)
Definition env_counter_reset : Env :=
  mkEnv (always (Some (sample_Stat 5 2600), None))
        (always (Some (sample_Config true), None))
        (always None) (always None) (always None).
(** ... the exchange counters stay at 2048 bytes ... *)
Definition env_idle : Env :=
  mkEnv (always (Some (sample_Stat 2048 2048), None))
        (always (Some (sample_Config true), None))
        (always None) (always None) (always None).
(** ... the exchange reports 1000/2000 bytes at the first sample and
    1500/2600 from then on ... *)
Definition env_two_reads : Env :=
  mkEnv (fun k => if (k =? 0)%nat
                  then (Some (sample_Stat 1000 2000), None)
                  else (Some (sample_Stat 1500 2600), None))
        (always (Some (sample_Config true), None))
        (always None) (always None) (always None).
(** ... the clock reads a date of the year 2026, some 63.9 thousand
    million seconds after the zero [time.Time], one minute later at
    each reading ... *)
Definition env_wall_clock : Env :=
  with_Now (fun k => (63900000000 + 60 * Z.of_nat k) * second) env_healthy.
(** ... [bs.Stat()] fails ... *)
Definition env_stat_error : Env :=
  mkEnv (always (None, Some "bitswap closed"%string))
        (always (Some (sample_Config true), None))
        (always None) (always None) (always None).
(** ... every [UpdateMetrics] call fails ... *)
Definition env_send_fails : Env :=
  mkEnv (always (Some (sample_Stat 1500 2600), None))
        (always (Some (sample_Config true), None))
        (always None) (always (Some "unavailable"%string)) (always None).
(** ... consent is never given ... *)
Definition env_no_consent : Env :=
  mkEnv (always (Some (sample_Stat 1500 2600), None))
        (always (Some (sample_Config false), None))
        (always None) (always None) (always None).
(** ... and the repo is closed at the first tick after start-up:
    [Repo.Config()] answers [(nil, err)]. *)
Definition env_repo_closed : Env :=
  mkEnv (always (Some (sample_Stat 1500 2600), None))
        (fun k => if (k =? 1)%nat
                  then (None, Some "cannot access config, repo not open"%string)
                  else (Some (sample_Config false), None))
        (always None) (always None) (always None).

(** ** Relations between the states before and after a computation *)

(** [m] takes every state to one related to it by [R], whatever its
    outcome. *)
Definition preserves {A : Type} (R : Agent -> Agent -> Prop) (m : M Agent A) : Prop :=
  forall a, R a (snd (m a)).

(** The identity part of the object (the promoted [programInfo]
    fields). *)
Definition identity (d : dataCollection)
  : Z * string * string * string * string * string * string :=
  (startTime d, NodeID d, HVal d, CPUInfo d, BTFSVersion d, OSType d, ArchType d).

Definition same_identity (a a' : Agent) : Prop :=
  identity (dc a') = identity (dc a).

Definition is_Close (e : Event) : bool :=
  match e with EvClose => true | _ => false end.

(** Of the first [n] dials, how many the environment lets succeed. *)
Fixpoint successful_dials (env : Env) (n : nat) : nat :=
  match n with
  | O => O
  | S k =>
      (successful_dials env k
       + match env_DialContext env k with None => 1 | Some _ => 0 end)%nat
  end.

(** Every connection opened so far was closed. *)
Definition connections_released (env : Env) (a : Agent) : Prop :=
  count_events is_Close (trace a) = successful_dials env (n_DialContext (calls a)).

(** The envelope [doSendData] builds from a payload (lines 186-201). *)
Definition envelope (env : Env) (key : PrivKey) (payload : bytes) : SignedMetrics :=
  {| Payload := payload;
     Signature := fst (env_Sign env key payload);
     PublicKey := fst (env_MarshalPublicKey env key) |}.

(** Lines 203-217 of [doSendData] as a computation of their own. *)
Definition deliver (env : Env) (sm : SignedMetrics) : M Agent error :=
  '(conn, err) <- getGrpcConn env ;;
  match err with
  | Some _ => ret err
  | None =>
      err <- UpdateMetrics env sm ;;
      conn_Close conn ;;;
      match err with
      | Some _ => ret err
      | None => ret None
      end
  end.

(** An [UpdateMetrics] event carries the signature of its own payload
    under [key] and the public key of [key]. *)
Definition well_signed (env : Env) (key : PrivKey) (e : Event) : Prop :=
  match e with
  | EvUpdateMetrics sm => sm = envelope env key (Payload sm)
  | _ => True
  end.

(** Between [a] and [a'] no [UpdateMetrics] call was made. *)
Definition no_metrics_sent (a a' : Agent) : Prop :=
  n_UpdateMetrics (calls a') = n_UpdateMetrics (calls a)
  /\ count_events is_UpdateMetrics (trace a') = count_events is_UpdateMetrics (trace a).

(** Between [a] and [a'] at most one [UpdateMetrics] call was made. *)
Definition at_most_one_metrics (a a' : Agent) : Prop :=
  (n_UpdateMetrics (calls a') <= n_UpdateMetrics (calls a) + 1)%nat.

(** If connections were all released at [a], they are at [a']. *)
Definition keeps_released (env : Env) (a a' : Agent) : Prop :=
  connections_released env a -> connections_released env a'.

(** If the deliveries recorded at [a] were well signed, those at [a']
    are, with no signing error behind them. *)
Definition signed_by (env : Env) (key : PrivKey) (e : Event) : Prop :=
  well_signed env key e
  /\ match e with
     | EvUpdateMetrics sm =>
         snd (env_Sign env key (Payload sm)) = None
         /\ snd (env_MarshalPublicKey env key) = None
     | _ => True
     end.
Definition keeps_signed (env : Env) (key : PrivKey) (a a' : Agent) : Prop :=
  Forall (signed_by env key) (trace a) -> Forall (signed_by env key) (trace a').

(** Between [a] and [a'] no [CollectHealth] call was made. *)
Definition no_alert_sent (a a' : Agent) : Prop :=
  n_CollectHealth (calls a') = n_CollectHealth (calls a)
  /\ count_events is_CollectHealth (trace a') = count_events is_CollectHealth (trace a).

(** The sampler's reads always succeed: the exchange is a bitswap whose
    [Stat()] answers statistics, and [cpus[0]] is in range. *)
Definition sampling_works (env : Env) (node : IpfsNode) : Prop :=
  NodeExchange node = Bitswap
  /\ (forall k, exists st, env_Stat env k = (Some st, None))
  /\ (forall k, cpu_Percent_indexable (env_cpu_Percent env k) = true).

(** Every read of the configuration succeeds and finds consent given. *)
Definition consent_given (env : Env) : Prop :=
  forall k, exists c, env_Config env k = (Some c, None) /\ Analytics c = true.

(** The record [nd] reports the object [d] (lines 224-239). *)
Definition reports (d : dataCollection) (nd : Node) : Prop :=
  nd_NodeId nd = NodeID d /\ nd_BtfsVersion nd = BTFSVersion d
  /\ nd_ArchType nd = ArchType d /\ nd_OsType nd = OSType d
  /\ nd_CpuInfo nd = CPUInfo d /\ nd_CpuUsed nd = CPUUsed d
  /\ nd_MemoryUsed nd = MemUsed d /\ nd_StorageUsed nd = StorageUsed d
  /\ nd_UpTime nd = UpTime d
  /\ nd_Upload nd = Upload d /\ nd_Download nd = Download d
  /\ nd_TotalUpload nd = TotalUp d /\ nd_TotalDownload nd = TotalDown d
  /\ nd_BlocksUp nd = BlocksUp d /\ nd_BlocksDown nd = BlocksDown d
  /\ nd_PeersConnected nd = NumPeers d.

(** ... and [cpu.Percent] and [GetStorageUsage] fail while everything
    else works. *)
Definition env_host_errors : Env :=
  {| env_ReadMemStats := env_ReadMemStats env_healthy;
     env_Now := env_Now env_healthy;
     env_cpu_Percent := always ([], Some "no cpu times"%string);
     env_GetStorageUsage := always (0, Some "repo closed"%string);
     env_Stat := env_Stat env_healthy;
     env_Config := env_Config env_healthy;
     env_DialContext := env_DialContext env_healthy;
     env_UpdateMetrics := env_UpdateMetrics env_healthy;
     env_CollectHealth := env_CollectHealth env_healthy;
     env_proto_Marshal := env_proto_Marshal env_healthy;
     env_Sign := env_Sign env_healthy;
     env_MarshalPublicKey := env_MarshalPublicKey env_healthy;
     env_ParseBytes := env_ParseBytes env_healthy |}.

(** ** Initialize (lines 80-115) *)

(** What [Initialize] reads from the host besides the environment: the
    answer of [cpu.Info()] (the model names of its entries),
    [runtime.GOOS], [runtime.GOARCH] and [peer.ID.Pretty]. *)
Record Host : Type := {
  host_cpu_Info : list string * error;
  host_GOOS : string;
  host_GOARCH : string;
  host_Pretty : string -> string
}.

(** The node handed to [Initialize]: the part the agent uses later and
    its [Identity]. *)
Record HostNode : Type := {
  host_node : IpfsNode;
  Identity : string
}.

Definition set_CPUInfo (v : string) (d : dataCollection) : dataCollection :=
  {| startTime := startTime d; NodeID := NodeID d; HVal := HVal d;
     CPUInfo := v; BTFSVersion := BTFSVersion d;
     OSType := OSType d; ArchType := ArchType d;
     UpTime := UpTime d; StorageUsed := StorageUsed d;
     MemUsed := MemUsed d; CPUUsed := CPUUsed d;
     Upload := Upload d; Download := Download d;
     TotalUp := TotalUp d; TotalDown := TotalDown d;
     BlocksUp := BlocksUp d; BlocksDown := BlocksDown d;
     NumPeers := NumPeers d |}.
Definition set_startTime (v : Z) (d : dataCollection) : dataCollection :=
  {| startTime := v; NodeID := NodeID d; HVal := HVal d;
     CPUInfo := CPUInfo d; BTFSVersion := BTFSVersion d;
     OSType := OSType d; ArchType := ArchType d;
     UpTime := UpTime d; StorageUsed := StorageUsed d;
     MemUsed := MemUsed d; CPUUsed := CPUUsed d;
     Upload := Upload d; Download := Download d;
     TotalUp := TotalUp d; TotalDown := TotalDown d;
     BlocksUp := BlocksUp d; BlocksDown := BlocksDown d;
     NumPeers := NumPeers d |}.
(** Lines 107-111. *)
Definition set_programInfo (nodeID hVal version os arch : string)
    (d : dataCollection) : dataCollection :=
  {| startTime := startTime d; NodeID := nodeID; HVal := hVal;
     CPUInfo := CPUInfo d; BTFSVersion := version;
     OSType := os; ArchType := arch;
     UpTime := UpTime d; StorageUsed := StorageUsed d;
     MemUsed := MemUsed d; CPUUsed := CPUUsed d;
     Upload := Upload d; Download := Download d;
     TotalUp := TotalUp d; TotalDown := TotalDown d;
     BlocksUp := BlocksUp d; BlocksDown := BlocksDown d;
     NumPeers := NumPeers d |}.

(** [Initialize] answers the node of the agent it starts ([dc.node]),
    or [None] when it returns before [go dc.collectionAgent()].  The
    package variable [statusServerDomain] it assigns is read nowhere in
    the file and is not kept; reading it dereferences the
    configuration.  A failed [cpu.Info()] is logged and otherwise
    ignored. *)
Definition Initialize (env : Env) (host : Host) (n : option HostNode)
    (BTFSVersion hValue : string) : M Agent (option IpfsNode) :=
  match n with
  | None => ret None
  | Some hn =>
      '(configuration, err) <- Repo_Config env ;;
      match err with
      | Some _ => ret None
      | None =>
          c <- deref configuration ;;
          modify (set_dc (fun _ => new_dataCollection)) ;;;
          if Analytics c then
            match host_cpu_Info host with
            | (infoStats, None) =>
                ModelName <- index0 infoStats ;;
                modify (set_dc (set_CPUInfo ModelName))
            | (_, Some _) => ret tt
            end ;;;
            now <- Now env ;;
            modify (set_dc (set_startTime now)) ;;;
            if (Identity hn =? "")%string then ret None
            else
              modify (set_dc (set_programInfo (host_Pretty host (Identity hn))
                                hValue BTFSVersion
                                (host_GOOS host) (host_GOARCH host))) ;;;
              ret (Some (host_node hn))
          else ret (Some (host_node hn))
      end
  end.

(** [Initialize] followed by the agent it started, up to its [ticks]-th
    heartbeat. *)
Definition InitializeAndRun (env : Env) (host : Host) (fuel ticks : nat)
    (n : option HostNode) (BTFSVersion hValue : string) : M Agent unit :=
  started <- Initialize env host n BTFSVersion hValue ;;
  match started with
  | Some node => collectionAgent env node fuel ticks
  | None => ret tt
  end.

Definition sample_Host : Host :=
  {| host_cpu_Info := (["Example CPU @ 2.0GHz"%string], None);
     host_GOOS := "linux"; host_GOARCH := "amd64";
     host_Pretty := fun id => ("Qm" ++ id)%string |}.
Definition host_without_cpu_info : Host :=
  {| host_cpu_Info := ([], None);
     host_GOOS := "linux"; host_GOARCH := "arm";
     host_Pretty := fun id => ("Qm" ++ id)%string |}.
Definition sample_HostNode : HostNode :=
  {| host_node := node_with_key; Identity := "N1" |}.
Definition anonymous_HostNode : HostNode :=
  {| host_node := node_with_key; Identity := "" |}.

(** Consent is off when [Initialize] reads the configuration and on at
    every later read. *)
Definition env_late_consent : Env :=
  mkEnv (always (Some (sample_Stat 1500 2600), None))
        (fun k => if (k =? 0)%nat
                  then (Some (sample_Config false), None)
                  else (Some (sample_Config true), None))
        (always None) (always None) (always None).

(** ** The policy of [retry] *)

(** The policy [retry] hands to [backoff.RetryLoop]: built by
    [NewExponentialBackOff], wrapped by [WithMaxRetries] and reset by
    [Retry], with [t] the clock's reading at that reset. *)
Definition initial_policy {S : Type} (now : M S Z) (t : Z)
  : backoff.backOffTries (backoff.ExponentialBackOff S) :=
  {| backoff.delegate :=
       {| backoff.InitialInterval := backoff.DefaultInitialInterval;
          backoff.MaxInterval := backoff.DefaultMaxInterval;
          backoff.MaxElapsedTime := backoff.DefaultMaxElapsedTime;
          backoff.Clock := now;
          backoff.currentInterval := backoff.DefaultInitialInterval;
          backoff.startTime := t |};
     backoff.maxTries := maxRetryTimes;
     backoff.numTries := 0 |}.

(** A policy of [retry] that allows [j] more retries. *)
Definition retry_policy {S : Type} (now : M S Z) (j : nat)
    (b : backoff.backOffTries (backoff.ExponentialBackOff S)) : Prop :=
  backoff.Clock (backoff.delegate b) = now
  /\ backoff.MaxElapsedTime (backoff.delegate b) <> 0
  /\ backoff.maxTries b = maxRetryTimes
  /\ backoff.numTries b = maxRetryTimes - Z.of_nat j
  /\ (j <= 3)%nat.

(** A policy of [retry] under a clock read off the state, started at
    [t0], with the library's defaults. *)
Definition live_policy {S : Type} (clock : S -> Z) (t0 : Z) (j : nat)
    (b : backoff.backOffTries (backoff.ExponentialBackOff S)) : Prop :=
  retry_policy (read clock) j b
  /\ backoff.MaxElapsedTime (backoff.delegate b) = backoff.DefaultMaxElapsedTime
  /\ 0 < backoff.currentInterval (backoff.delegate b)
  /\ 0 < backoff.MaxInterval (backoff.delegate b)
  /\ backoff.startTime (backoff.delegate b) = t0.

(** More than [MaxElapsedTime] lies between the readings [t0] and [t]. *)
Definition time_is_up (t0 t : Z) : bool :=
  time_Sub t t0 >? backoff.DefaultMaxElapsedTime.

(** The clock of [read clock] seen through [counted]. *)
Definition counted_clock {S : Type} (clock : S -> Z) : M (S * nat) Z :=
  read (fun sn => clock (fst sn)).

(** Operations on a state that is the time, in nanoseconds: each run
    of [slow_failure] takes six minutes and fails; each run of
    [quick_failure] takes a second and fails. *)
Definition failure_taking (d : Z) : M Z error :=
  fun t => (Done (Some "unavailable"%string), t + d).
Definition slow_failure : M Z error := failure_taking (6 * 60 * second).
Definition quick_failure : M Z error := failure_taking second.

(** Proof steps: [unfold_go] exposes the monadic plumbing of the
    collaborator calls; [walk bind_lemma finish] descends through binds
    and case distinctions of a computation for a predicate that
    [bind_lemma] carries over [bind], closing the leaves with [finish]. *)
Ltac unfold_go :=
  unfold ReadMemStats, Now, cpu_Percent, GetStorageUsage, bs_Stat, Repo_Config,
    DialContext, UpdateMetrics, CollectHealth, conn_Close, emit, call,
    deref, index0, bind, get, modify, ret, panic, diverge in *.

(** A leaf of [walk] for a relation on call counts and event counts;
    [app_lemma] distributes the event count over an appended trace. *)
Ltac count_leaf app_lemma :=
  let a0 := fresh "a" in
  intros a0; split; cbn -[count_events];
  [ reflexivity
  | rewrite ?app_lemma; cbn; lia ].

Ltac released_leaf :=
  let a0 := fresh "a" in
  let H := fresh "H" in
  intros a0 H; exact H.

Ltac signed_leaf :=
  let a0 := fresh "a" in
  let H := fresh "H" in
  intros a0 H; cbn;
  first [ exact H
        | apply Forall_app; split; [exact H | repeat constructor] ].

Ltac walk bind_lemma finish :=
  repeat match goal with
    | |- _ (bind _ _) => apply bind_lemma
    | |- forall _, _ => intro
    | |- _ (match ?x with _ => _ end) => destruct x
    | |- _ (let (_, _) := ?x in _) => destruct x
    | |- _ => solve [finish]
    end.

(** * Properties *)

(** ** Unsigned arithmetic of the sampler *)

Lemma wrap64_small (x : Z) : is_uint64 x -> wrap64 x = x.
Proof.
  unfold is_uint64, wrap64. intros H. apply Z.mod_small. exact H.
Qed.

Lemma wrap64_range (x : Z) : is_uint64 (wrap64 x).
Proof.
  unfold is_uint64, wrap64. apply Z.mod_pos_bound. reflexivity.
Qed.

Lemma valOrZero_nonneg (x : Z) : 0 <= x -> valOrZero x = x.
Proof.
  intros H. unfold valOrZero.
  destruct (Z.ltb_spec x 0) as [Hneg | _]; [lia | reflexivity].
Qed.

Lemma sub64_underflow (x y : Z) :
  is_uint64 x -> is_uint64 y -> x < y ->
  sub64 x y = uint64_modulus - (y - x).
Proof.
  unfold is_uint64, sub64, wrap64. intros Hx Hy Hlt.
  replace (x - y) with ((uint64_modulus - (y - x)) + (-1) * uint64_modulus) by ring.
  rewrite Z.mod_add by (unfold uint64_modulus; lia).
  apply Z.mod_small. lia.
Qed.

Lemma sub64_no_underflow (x y : Z) :
  is_uint64 x -> is_uint64 y -> y <= x -> sub64 x y = x - y.
Proof.
  unfold is_uint64, sub64, wrap64. intros Hx Hy Hle.
  apply Z.mod_small. lia.
Qed.

(** C10: [valOrZero] is the identity on every [uint64] value (its
    [x < 0] branch cannot be taken), so the interval computed by
    [update] is the wrapped difference divided by 1024: when the new
    reading is below the stored total the difference wraps to
    [2^64 - (stored - new)] and is not clamped to zero. *)
Theorem valOrZero_identity_sub_wraps (x : Z) (st : Stat) (d : dataCollection) :
  is_uint64 x -> is_uint64 (DataSent st) -> is_uint64 (TotalUp d) ->
  valOrZero x = x /\
  Upload (applyStat st d) = ((DataSent st - TotalUp d) mod 2 ^ 64) / 1024 /\
  (DataSent st < TotalUp d ->
   valOrZero (sub64 (DataSent st) (TotalUp d))
   = 2 ^ 64 - (TotalUp d - DataSent st) /\
   0 < valOrZero (sub64 (DataSent st) (TotalUp d))).
Proof.
  intros Hx Hs Ht. split; [| split].
  - apply valOrZero_nonneg. apply Hx.
  - cbn [applyStat Upload].
    rewrite valOrZero_nonneg by apply wrap64_range.
    reflexivity.
  - intros Hlt.
    rewrite valOrZero_nonneg by apply wrap64_range.
    rewrite sub64_underflow by assumption.
    unfold is_uint64, uint64_modulus in *. lia.
Qed.

Lemma valOrZero_identity_sub_wraps_witness :
  valOrZero 5 = 5 /\
  Upload (applyStat (sample_Stat 5 2600) (with_totals 10 2000 dc_N1))
  = ((5 - 10) mod 2 ^ 64) / 1024 /\
  (5 < 10 ->
   valOrZero (sub64 5 10) = 2 ^ 64 - (10 - 5) /\ 0 < valOrZero (sub64 5 10)).
Proof.
  apply (valOrZero_identity_sub_wraps 5 (sample_Stat 5 2600)
           (with_totals 10 2000 dc_N1));
    unfold is_uint64, uint64_modulus; simpl; lia.
Defined.

(** ** Symbolic execution of the agent *)

(** A successful statistics read: [update] returns, emits nothing, and
    leaves [applyStat st] of an object that still holds the totals
    stored before. *)
Lemma update_reads_stat (env : Env) (node : IpfsNode) (fuel : nat)
    (a : Agent) (st : Stat) :
  NodeExchange node = Bitswap ->
  cpu_Percent_indexable (env_cpu_Percent env (n_cpu_Percent (calls a))) = true ->
  env_Stat env (n_Stat (calls a)) = (Some st, None) ->
  exists d1 c1,
    update env node fuel a
    = (Done tt, {| dc := applyStat st d1; calls := c1; trace := trace a |})
    /\ same_totals (dc a) d1.
Proof.
  intros Hex Hcpu Hst. unfold update. rewrite Hex. unfold_go. cbn.
  destruct (env_cpu_Percent env (n_cpu_Percent (calls a))) as [cpus [e|]];
    [| destruct cpus as [|c cpus]; [discriminate Hcpu |]];
    cbn;
    destruct (env_GetStorageUsage env (n_GetStorageUsage (calls a))) as [storage [e'|]];
    cbn; rewrite Hst; cbn;
    eexists; eexists; (split; [reflexivity | split; reflexivity]).
Qed.

(** The interval computed by two successive reads of the exchange
    statistics: the first read stores its totals in kilobytes, and the
    second subtracts those kilobytes from its own reading in bytes. *)
Lemma applyStat_twice (st0 st1 : Stat) (d : dataCollection) :
  TotalUp (applyStat st0 d) = DataSent st0 / kilobyte
  /\ Upload (applyStat st1 (applyStat st0 d))
     = valOrZero (sub64 (DataSent st1) (DataSent st0 / kilobyte)) / kilobyte
  /\ TotalUp (applyStat st1 (applyStat st0 d)) = DataSent st1 / kilobyte.
Proof. repeat split. Qed.


(** The same two readings through [sampleUploads]: the interval
    uploads of the two steps are 0 and 1. *)
Lemma update_twice_1000_1500 :
  sampleUploads env_two_reads node_with_key 4 2 (start dc_N1) = [0; 1].
Proof. vm_compute. reflexivity. Qed.

(** As long as the new reading is not below the stored total, the
    interval is the clamped difference in kilobytes. *)
Lemma applyStat_no_decrease (st : Stat) (d : dataCollection) :
  is_uint64 (DataSent st) -> is_uint64 (TotalUp d) ->
  TotalUp d <= DataSent st ->
  Upload (applyStat st d) = Z.max 0 (DataSent st - TotalUp d) / kilobyte.
Proof.
  intros Hs Ht Hle. cbn [applyStat Upload].
  rewrite sub64_no_underflow by assumption.
  rewrite valOrZero_nonneg by lia.
  rewrite Z.max_r by lia. reflexivity.
Qed.

Lemma applyStat_no_decrease_witness :
  Upload (applyStat (sample_Stat 4096 2600) (with_totals 1000 2000 dc_N1))
  = Z.max 0 (DataSent (sample_Stat 4096 2600)
             - TotalUp (with_totals 1000 2000 dc_N1)) / kilobyte.
Proof.
  apply (applyStat_no_decrease (sample_Stat 4096 2600)
           (with_totals 1000 2000 dc_N1));
    unfold is_uint64, uint64_modulus; simpl; lia.
Defined.

(** C1, evaluated where it fails: the stored upload total is 10 and the
    exchange reports 5 bytes sent.  [max(0, 5 - 10) / 1024] is 0; the
    sampler stores [(2^64 - 5) / 1024]. *)
Theorem update_counter_decrease_wraps :
  Upload (dc (snd (update env_counter_reset node_with_key 4
                     (start (with_totals 10 2000 dc_N1)))))
  = 18014398509481983
  /\ Z.max 0 (5 - 10) / kilobyte = 0.
Proof.
  split; vm_compute; reflexivity.
Qed.

(** C4, evaluated where it fails: the exchange reports 2048 bytes sent
    at each of three successive samples.  The interval uploads are 2, 1
    and 1 KB: after the first sample the stored total is 2 (kilobytes),
    and each later interval is [(2048 - 2) / 1024].  The counter did not
    move between the samples, so [c_n - c_0] is 0. *)
Theorem sampleUploads_idle_counter :
  sampleUploads env_idle node_with_key 4 3 (start dc_N1) = [2; 1; 1]
  /\ 1 + 1 <> (2048 - 2048) / kilobyte
  /\ 1 + 1 <> 2048 - 2048.
Proof.
  split; [vm_compute; reflexivity | split; vm_compute; discriminate].
Qed.

(** ** retry *)

(** [retry] reads the clock twice, in [NewExponentialBackOff] and in
    [Retry]'s reset, and then loops with the initial policy. *)
Lemma retry_unfold {S : Type} (now : M S Z) (fuel : nat) (f : M S error) (s : S) :
  retry now fuel f s
  = match now s with
    | (Done _, s1) =>
        match now s1 with
        | (Done t, s2) =>
            (backoff.RetryLoop fuel f (initial_policy now t) ;;; ret tt) s2
        | (Panic msg, s2) => (Panic msg, s2)
        | (Diverge, s2) => (Diverge, s2)
        end
    | (Panic msg, s1) => (Panic msg, s1)
    | (Diverge, s1) => (Diverge, s1)
    end.
Proof.
  unfold retry, backoff.NewExponentialBackOff, backoff.Retry, initial_policy.
  unfold bind, ret. cbn. unfold bind, ret.
  destruct (now s) as [[t0 | msg |] s1]; try reflexivity.
  cbn. destruct (now s1) as [[t1 | msg |] s2]; reflexivity.
Qed.

Lemma counted_run {S : Type} (op : M S error) (s s' : S) (n : nat)
    (r : Outcome error) :
  op s = (r, s') -> counted op (s, n) = (r, (s', Datatypes.S n)).
Proof.
  intros H. unfold counted. cbn. rewrite H. reflexivity.
Qed.

Lemma initial_policy_retry_policy {S : Type} (now : M S Z) (t : Z) :
  retry_policy now 3 (initial_policy now t).
Proof.
  repeat split; try reflexivity; try discriminate; lia.
Qed.

Lemma ExponentialBackOff_NextBackOff {S : Type}
    (dg : backoff.ExponentialBackOff S) (s : S) :
  backoff.MaxElapsedTime dg <> 0 ->
  backoff.NextBackOff dg s
  = match backoff.Clock dg s with
    | (Done t, s1) =>
        (Done (if time_Sub t (backoff.startTime dg) >? backoff.MaxElapsedTime dg
               then (backoff.Stop, dg)
               else (backoff.currentInterval dg, backoff.incrementCurrentInterval dg)),
         s1)
    | (Panic msg, s1) => (Panic msg, s1)
    | (Diverge, s1) => (Diverge, s1)
    end.
Proof.
  intros Hmax. cbn [backoff.NextBackOff backoff.ExponentialBackOff_BackOff].
  destruct (backoff.MaxElapsedTime dg =? 0) eqn:Hzero;
    [apply Z.eqb_eq in Hzero; contradiction |].
  unfold backoff.GetElapsedTime, bind, ret.
  destruct (backoff.Clock dg s) as [[t | msg |] s1]; try reflexivity.
  destruct (time_Sub t (backoff.startTime dg) >? backoff.MaxElapsedTime dg);
    reflexivity.
Qed.

(** What a policy of [retry] answers: [Stop] without reading the clock
    when no retry is left; otherwise it reads the clock once and the
    next policy allows one retry less. *)
Lemma NextBackOff_retry_policy {S : Type} (now : M S Z) (j : nat)
    (b : backoff.backOffTries (backoff.ExponentialBackOff S)) (s : S) :
  retry_policy now j b ->
  match j with
  | O => backoff.NextBackOff b s = (Done (backoff.Stop, b), s)
  | Datatypes.S j' =>
      match now s with
      | (Done t, s1) =>
          exists next b',
            backoff.NextBackOff b s = (Done (next, b'), s1)
            /\ retry_policy now j' b'
      | (Panic msg, s1) => backoff.NextBackOff b s = (Panic msg, s1)
      | (Diverge, s1) => backoff.NextBackOff b s = (Diverge, s1)
      end
  end.
Proof.
  intros (Hclock & Hmax & Htries & Hnum & Hj).
  destruct b as [dg mt nt].
  cbn [backoff.delegate backoff.maxTries backoff.numTries] in Hclock, Hmax, Htries, Hnum.
  subst mt now.
  cbn [backoff.NextBackOff backoff.backOffTries_BackOff backoff.maxTries
       backoff.numTries backoff.delegate].
  change (0 <? maxRetryTimes) with true. cbv iota.
  destruct j as [| j'].
  - replace (maxRetryTimes <=? nt) with true
      by (symmetry; apply Z.leb_le; unfold maxRetryTimes in *; lia).
    reflexivity.
  - replace (maxRetryTimes <=? nt) with false
      by (symmetry; apply Z.leb_gt; unfold maxRetryTimes in *; lia).
    unfold bind, ret. rewrite (ExponentialBackOff_NextBackOff dg s Hmax).
    destruct (backoff.Clock dg s) as [[t | msg |] s1]; try reflexivity.
    assert (Hnext : wrap64 (nt + 1) = maxRetryTimes - Z.of_nat j').
    { rewrite Hnum. unfold wrap64, uint64_modulus, maxRetryTimes.
      rewrite Z.mod_small; lia. }
    destruct (time_Sub t (backoff.startTime dg) >? backoff.MaxElapsedTime dg);
      do 2 eexists; (split; [reflexivity |]);
      repeat split; cbn; try assumption; try reflexivity; lia.
Qed.

(** One retry decision under a clock that is read off the state: the
    policy gives up when more than [MaxElapsedTime] has elapsed since
    its start, and otherwise allows the next run. *)
Lemma NextBackOff_read {S : Type} (clock : S -> Z) (t0 : Z) (j : nat)
    (b : backoff.backOffTries (backoff.ExponentialBackOff S)) (s : S) :
  live_policy clock t0 (Datatypes.S j) b ->
  exists next b',
    backoff.NextBackOff b s = (Done (next, b'), s)
    /\ live_policy clock t0 j b'
    /\ (next =? backoff.Stop) = time_is_up t0 (clock s).
Proof.
  intros ((Hclock & Hmax & Htries & Hnum & Hj) & Hdefault & Hcur & Hmaxint & Hstart).
  destruct b as [dg mt nt].
  cbn [backoff.delegate backoff.maxTries backoff.numTries]
    in Hclock, Hmax, Htries, Hnum, Hdefault, Hcur, Hmaxint, Hstart.
  subst mt.
  cbn [backoff.NextBackOff backoff.backOffTries_BackOff backoff.maxTries
       backoff.numTries backoff.delegate].
  change (0 <? maxRetryTimes) with true. cbv iota.
  replace (maxRetryTimes <=? nt) with false
    by (symmetry; apply Z.leb_gt; unfold maxRetryTimes in *; lia).
  unfold bind, ret. rewrite (ExponentialBackOff_NextBackOff dg s Hmax).
  rewrite Hclock. unfold read, time_is_up. rewrite Hdefault, Hstart.
  assert (Hnext : wrap64 (nt + 1) = maxRetryTimes - Z.of_nat j).
  { rewrite Hnum. unfold wrap64, uint64_modulus, maxRetryTimes.
    rewrite Z.mod_small; lia. }
  destruct (time_Sub (clock s) t0 >? backoff.DefaultMaxElapsedTime) eqn:Hexpired.
  - do 2 eexists. split; [reflexivity |].
    unfold live_policy, retry_policy. cbn.
    repeat split; try assumption; try reflexivity; lia.
  - do 2 eexists. split; [reflexivity |].
    unfold live_policy, retry_policy. cbn.
    repeat split; try assumption; try reflexivity; try lia.
    + destruct (backoff.MaxInterval dg * 2 <=? backoff.currentInterval dg * 3);
        [assumption |].
      apply Z.div_str_pos. lia.
    + apply Z.eqb_neq. unfold backoff.Stop. lia.
Qed.

Lemma initial_policy_live {S : Type} (clock : S -> Z) (t0 : Z) :
  live_policy clock t0 3 (initial_policy (read clock) t0).
Proof.
  split; [apply initial_policy_retry_policy |].
  repeat split; reflexivity.
Qed.

Lemma RetryLoop_success {S B : Type} `{backoff.BackOff S B}
    (fuel : nat) (op : M S error) (b : B) (s s1 : S) :
  op s = (Done None, s1) ->
  backoff.RetryLoop (Datatypes.S fuel) op b s = (Done None, s1).
Proof.
  intros Hop. cbn [backoff.RetryLoop]. unfold bind. rewrite Hop. reflexivity.
Qed.

Lemma RetryLoop_failed_run {S : Type} (clock : S -> Z) (t0 : Z) (fuel j : nat)
    (op : M S error)
    (b : backoff.backOffTries (backoff.ExponentialBackOff S))
    (s s1 : S) (e : string) :
  live_policy clock t0 (Datatypes.S j) b ->
  op s = (Done (Some e), s1) ->
  exists b',
    backoff.RetryLoop (Datatypes.S fuel) op b s
    = (if time_is_up t0 (clock s1) then (Done (Some e), s1)
       else backoff.RetryLoop fuel op b' s1)
    /\ live_policy clock t0 j b'.
Proof.
  intros Hlive Hop.
  destruct (NextBackOff_read clock t0 j b s1 Hlive) as (next & b' & Hnext & Hlive' & Hstop).
  exists b'. split; [| exact Hlive'].
  cbn [backoff.RetryLoop]. unfold bind at 1. rewrite Hop.
  unfold bind at 1. rewrite Hnext. rewrite Hstop.
  destruct (time_is_up t0 (clock s1)); reflexivity.
Qed.

Lemma RetryLoop_last_run {S : Type} (now : M S Z) (fuel : nat) (op : M S error)
    (b : backoff.backOffTries (backoff.ExponentialBackOff S))
    (s s1 : S) (e : string) :
  retry_policy now 0 b ->
  op s = (Done (Some e), s1) ->
  backoff.RetryLoop (Datatypes.S fuel) op b s = (Done (Some e), s1).
Proof.
  intros Hpolicy Hop.
  pose proof (NextBackOff_retry_policy now 0 b s1 Hpolicy) as Hnext.
  cbn [backoff.RetryLoop]. unfold bind at 1. rewrite Hop.
  unfold bind at 1. rewrite Hnext. reflexivity.
Qed.

Lemma time_is_up_false (t0 t : Z) :
  time_Sub t t0 <= backoff.DefaultMaxElapsedTime -> time_is_up t0 t = false.
Proof.
  intros H. unfold time_is_up. rewrite Z.gtb_ltb. apply Z.ltb_ge. exact H.
Qed.

Lemma time_is_up_true (t0 t : Z) :
  backoff.DefaultMaxElapsedTime < time_Sub t t0 -> time_is_up t0 t = true.
Proof.
  intros H. unfold time_is_up. rewrite Z.gtb_ltb. apply Z.ltb_lt. exact H.
Qed.

(** [retry] on a counted operation, under a clock read off the state. *)
Lemma retry_counted {S : Type} (op : M S error) (clock : S -> Z) (fuel : nat)
    (s0 : S) (r : error) (sn : S * nat) :
  backoff.RetryLoop fuel (counted op)
    (initial_policy (counted_clock clock) (clock s0)) (s0, 0%nat)
  = (Done r, sn) ->
  retry (counted_clock clock) fuel (counted op) (s0, 0%nat) = (Done tt, sn).
Proof.
  intros Hloop. rewrite retry_unfold. unfold counted_clock, read at 1 2.
  cbv beta iota. unfold bind. cbn [fst].
  unfold counted_clock in Hloop. rewrite Hloop. reflexivity.
Qed.

(** C6, as the code has it: [retry] calls [op] once and then retries it
    up to [maxRetryTimes] = 3 more times, as long as no more than the
    policy's [MaxElapsedTime] of 15 minutes has elapsed since it started
    when a retry is decided.  Within that time an [op] that fails twice
    and then succeeds is invoked exactly 3 times and [retry] returns
    normally in the state the third invocation left; an [op] that fails
    at each of its invocations is invoked exactly 4 times, after which
    [retry] also returns normally, the error dropped.  Once more than 15
    minutes have elapsed at the decision after the first, second or
    third failed invocation, [retry] gives up there, the error dropped,
    having made that many invocations.  Any loop bound above
    [maxRetryTimes] gives these results. *)
Theorem retry_invocations {S : Type} (op : M S error) (clock : S -> Z)
    (fuel : nat) (s0 : S) :
  (3 < fuel)%nat ->
  (forall s1 s2 s3 e1 e2,
      op s0 = (Done (Some e1), s1) ->
      op s1 = (Done (Some e2), s2) ->
      op s2 = (Done None, s3) ->
      time_Sub (clock s1) (clock s0) <= backoff.DefaultMaxElapsedTime ->
      time_Sub (clock s2) (clock s0) <= backoff.DefaultMaxElapsedTime ->
      retry (counted_clock clock) fuel (counted op) (s0, 0%nat)
      = (Done tt, (s3, 3%nat)))
  /\ (forall s1 s2 s3 s4 e1 e2 e3 e4,
         op s0 = (Done (Some e1), s1) ->
         op s1 = (Done (Some e2), s2) ->
         op s2 = (Done (Some e3), s3) ->
         op s3 = (Done (Some e4), s4) ->
         time_Sub (clock s1) (clock s0) <= backoff.DefaultMaxElapsedTime ->
         time_Sub (clock s2) (clock s0) <= backoff.DefaultMaxElapsedTime ->
         time_Sub (clock s3) (clock s0) <= backoff.DefaultMaxElapsedTime ->
         retry (counted_clock clock) fuel (counted op) (s0, 0%nat)
         = (Done tt, (s4, 4%nat)))
  /\ (forall s1 e1,
         op s0 = (Done (Some e1), s1) ->
         backoff.DefaultMaxElapsedTime < time_Sub (clock s1) (clock s0) ->
         retry (counted_clock clock) fuel (counted op) (s0, 0%nat)
         = (Done tt, (s1, 1%nat)))
  /\ (forall s1 s2 e1 e2,
         op s0 = (Done (Some e1), s1) ->
         op s1 = (Done (Some e2), s2) ->
         time_Sub (clock s1) (clock s0) <= backoff.DefaultMaxElapsedTime ->
         backoff.DefaultMaxElapsedTime < time_Sub (clock s2) (clock s0) ->
         retry (counted_clock clock) fuel (counted op) (s0, 0%nat)
         = (Done tt, (s2, 2%nat)))
  /\ (forall s1 s2 s3 e1 e2 e3,
         op s0 = (Done (Some e1), s1) ->
         op s1 = (Done (Some e2), s2) ->
         op s2 = (Done (Some e3), s3) ->
         time_Sub (clock s1) (clock s0) <= backoff.DefaultMaxElapsedTime ->
         time_Sub (clock s2) (clock s0) <= backoff.DefaultMaxElapsedTime ->
         backoff.DefaultMaxElapsedTime < time_Sub (clock s3) (clock s0) ->
         retry (counted_clock clock) fuel (counted op) (s0, 0%nat)
         = (Done tt, (s3, 3%nat))).
Proof.
  intros Hfuel.
  destruct fuel as [|[|[|[|fuel]]]]; try lia.
  pose proof (initial_policy_live (fun sn : S * nat => clock (fst sn)) (clock s0))
    as L3.
  fold (counted_clock clock) in L3.
  assert (Hrun : forall (sa sb : S) (n : nat) r,
             op sa = (r, sb) -> counted op (sa, n) = (r, (sb, Datatypes.S n)))
    by (intros; apply counted_run; assumption).
  repeat split.
  - intros s1 s2 s3 e1 e2 H1 H2 H3 T1 T2.
    apply (retry_counted op clock _ s0 None).
    destruct (RetryLoop_failed_run _ _ (Datatypes.S (Datatypes.S (Datatypes.S fuel)))
                _ (counted op) _ _ _ _ L3 (Hrun _ _ 0%nat _ H1)) as (b2 & E1 & L2).
    rewrite E1. cbn [fst]. rewrite (time_is_up_false _ _ T1).
    destruct (RetryLoop_failed_run _ _ (Datatypes.S (Datatypes.S fuel))
                _ (counted op) _ _ _ _ L2 (Hrun _ _ 1%nat _ H2)) as (b1 & E2 & L1).
    rewrite E2. cbn [fst]. rewrite (time_is_up_false _ _ T2).
    apply RetryLoop_success. apply Hrun. exact H3.
  - intros s1 s2 s3 s4 e1 e2 e3 e4 H1 H2 H3 H4 T1 T2 T3.
    apply (retry_counted op clock _ s0 (Some e4)).
    destruct (RetryLoop_failed_run _ _ (Datatypes.S (Datatypes.S (Datatypes.S fuel)))
                _ (counted op) _ _ _ _ L3 (Hrun _ _ 0%nat _ H1)) as (b2 & E1 & L2).
    rewrite E1. cbn [fst]. rewrite (time_is_up_false _ _ T1).
    destruct (RetryLoop_failed_run _ _ (Datatypes.S (Datatypes.S fuel))
                _ (counted op) _ _ _ _ L2 (Hrun _ _ 1%nat _ H2)) as (b1 & E2 & L1).
    rewrite E2. cbn [fst]. rewrite (time_is_up_false _ _ T2).
    destruct (RetryLoop_failed_run _ _ (Datatypes.S fuel)
                _ (counted op) _ _ _ _ L1 (Hrun _ _ 2%nat _ H3)) as (b0 & E3 & L0).
    rewrite E3. cbn [fst]. rewrite (time_is_up_false _ _ T3).
    destruct L0 as (P0 & _).
    apply (RetryLoop_last_run (counted_clock clock) fuel (counted op) b0 _ _ e4 P0).
    apply Hrun. exact H4.
  - intros s1 e1 H1 T1.
    apply (retry_counted op clock _ s0 (Some e1)).
    destruct (RetryLoop_failed_run _ _ (Datatypes.S (Datatypes.S (Datatypes.S fuel)))
                _ (counted op) _ _ _ _ L3 (Hrun _ _ 0%nat _ H1)) as (b2 & E1 & L2).
    rewrite E1. cbn [fst]. rewrite (time_is_up_true _ _ T1). reflexivity.
  - intros s1 s2 e1 e2 H1 H2 T1 T2.
    apply (retry_counted op clock _ s0 (Some e2)).
    destruct (RetryLoop_failed_run _ _ (Datatypes.S (Datatypes.S (Datatypes.S fuel)))
                _ (counted op) _ _ _ _ L3 (Hrun _ _ 0%nat _ H1)) as (b2 & E1 & L2).
    rewrite E1. cbn [fst]. rewrite (time_is_up_false _ _ T1).
    destruct (RetryLoop_failed_run _ _ (Datatypes.S (Datatypes.S fuel))
                _ (counted op) _ _ _ _ L2 (Hrun _ _ 1%nat _ H2)) as (b1 & E2 & L1).
    rewrite E2. cbn [fst]. rewrite (time_is_up_true _ _ T2). reflexivity.
  - intros s1 s2 s3 e1 e2 e3 H1 H2 H3 T1 T2 T3.
    apply (retry_counted op clock _ s0 (Some e3)).
    destruct (RetryLoop_failed_run _ _ (Datatypes.S (Datatypes.S (Datatypes.S fuel)))
                _ (counted op) _ _ _ _ L3 (Hrun _ _ 0%nat _ H1)) as (b2 & E1 & L2).
    rewrite E1. cbn [fst]. rewrite (time_is_up_false _ _ T1).
    destruct (RetryLoop_failed_run _ _ (Datatypes.S (Datatypes.S fuel))
                _ (counted op) _ _ _ _ L2 (Hrun _ _ 1%nat _ H2)) as (b1 & E2 & L1).
    rewrite E2. cbn [fst]. rewrite (time_is_up_false _ _ T2).
    destruct (RetryLoop_failed_run _ _ (Datatypes.S fuel)
                _ (counted op) _ _ _ _ L1 (Hrun _ _ 2%nat _ H3)) as (b0 & E3 & L0).
    rewrite E3. cbn [fst]. rewrite (time_is_up_true _ _ T3). reflexivity.
Qed.

Lemma retry_invocations_witness :
  retry (counted_clock (fun _ : nat => 0)) 5 (counted flaky) (0%nat, 0%nat)
  = (Done tt, (3%nat, 3%nat))
  /\ retry (counted_clock (fun t : Z => t)) 5 (counted quick_failure) (0, 0%nat)
     = (Done tt, (4 * second, 4%nat))
  /\ retry (counted_clock (fun t : Z => t)) 5
       (counted (failure_taking (16 * 60 * second))) (0, 0%nat)
     = (Done tt, (16 * 60 * second, 1%nat))
  /\ retry (counted_clock (fun t : Z => t)) 5
       (counted (failure_taking (8 * 60 * second))) (0, 0%nat)
     = (Done tt, (16 * 60 * second, 2%nat))
  /\ retry (counted_clock (fun t : Z => t)) 5 (counted slow_failure) (0, 0%nat)
     = (Done tt, (18 * 60 * second, 3%nat)).
Proof.
  split; [| split; [| split; [| split]]].
  - apply (proj1 (retry_invocations flaky (fun _ => 0) 5 0%nat ltac:(lia))
             1%nat 2%nat 3%nat "unavailable"%string "unavailable"%string);
      first [reflexivity | vm_compute; discriminate].
  - apply (proj1 (proj2 (retry_invocations quick_failure (fun t => t) 5 0
                           ltac:(lia)))
             second (2 * second) (3 * second) (4 * second)
             "unavailable"%string "unavailable"%string
             "unavailable"%string "unavailable"%string);
      first [reflexivity | vm_compute; discriminate].
  - apply (proj1 (proj2 (proj2 (retry_invocations
                                  (failure_taking (16 * 60 * second))
                                  (fun t => t) 5 0 ltac:(lia))))
             (16 * 60 * second) "unavailable"%string);
      reflexivity.
  - apply (proj1 (proj2 (proj2 (proj2 (retry_invocations
                                         (failure_taking (8 * 60 * second))
                                         (fun t => t) 5 0 ltac:(lia)))))
             (8 * 60 * second) (16 * 60 * second)
             "unavailable"%string "unavailable"%string);
      first [reflexivity | vm_compute; discriminate].
  - apply (proj2 (proj2 (proj2 (proj2 (retry_invocations slow_failure
                                         (fun t => t) 5 0 ltac:(lia)))))
             (6 * 60 * second) (12 * 60 * second) (18 * 60 * second)
             "unavailable"%string "unavailable"%string "unavailable"%string);
      first [reflexivity | vm_compute; discriminate].
Defined.

(** C6 as stated fails on an operation that always fails, each
    invocation taking one second: it is invoked 4 times, not 3. *)
Lemma retry_always_fails_four_calls :
  (forall t, exists e t', quick_failure t = (Done (Some e), t'))
  /\ snd (snd (retry (counted_clock (fun t : Z => t)) 5 (counted quick_failure)
                 (0, 0%nat))) = 4%nat
  /\ snd (snd (retry (counted_clock (fun t : Z => t)) 5 (counted quick_failure)
                 (0, 0%nat))) <> 3%nat.
Proof.
  split; [intros t; do 2 eexists; reflexivity |].
  split; [vm_compute; reflexivity | vm_compute; discriminate].
Qed.

(** The retry decision as a computation: a policy with retries left
    reads the clock once and decides from the reading. *)
Lemma NextBackOff_reads_clock {S : Type} (now : M S Z) (j : nat)
    (b : backoff.backOffTries (backoff.ExponentialBackOff S)) :
  retry_policy now (Datatypes.S j) b ->
  exists decide : Z -> Z * backoff.backOffTries (backoff.ExponentialBackOff S),
    (forall s, backoff.NextBackOff b s = (t <- now ;; ret (decide t)) s)
    /\ forall t, retry_policy now j (snd (decide t)).
Proof.
  intros (Hclock & Hmax & Htries & Hnum & Hj).
  destruct b as [dg mt nt].
  cbn [backoff.delegate backoff.maxTries backoff.numTries] in Hclock, Hmax, Htries, Hnum.
  subst mt now.
  exists (fun t =>
            if time_Sub t (backoff.startTime dg) >? backoff.MaxElapsedTime dg
            then (backoff.Stop,
                  {| backoff.delegate := dg; backoff.maxTries := maxRetryTimes;
                     backoff.numTries := wrap64 (nt + 1) |})
            else (backoff.currentInterval dg,
                  {| backoff.delegate := backoff.incrementCurrentInterval dg;
                     backoff.maxTries := maxRetryTimes;
                     backoff.numTries := wrap64 (nt + 1) |})).
  assert (Hnext : wrap64 (nt + 1) = maxRetryTimes - Z.of_nat j).
  { rewrite Hnum. unfold wrap64, uint64_modulus, maxRetryTimes.
    rewrite Z.mod_small; lia. }
  split.
  - intros s.
    cbn [backoff.NextBackOff backoff.backOffTries_BackOff backoff.maxTries
         backoff.numTries backoff.delegate].
    change (0 <? maxRetryTimes) with true. cbv iota.
    replace (maxRetryTimes <=? nt) with false
      by (symmetry; apply Z.leb_gt; unfold maxRetryTimes in *; lia).
    unfold bind, ret. rewrite (ExponentialBackOff_NextBackOff dg s Hmax).
    destruct (backoff.Clock dg s) as [[t | msg |] s1]; try reflexivity.
    destruct (time_Sub t (backoff.startTime dg) >? backoff.MaxElapsedTime dg);
      reflexivity.
  - intros t.
    destruct (time_Sub t (backoff.startTime dg) >? backoff.MaxElapsedTime dg);
      repeat split; cbn; try assumption; try reflexivity; lia.
Qed.

(** Properties of computations that [ret] has, that [bind] keeps and
    that do not tell apart computations with the same runs are kept by
    [retry], when the clock and the operation have them. *)
Section RetryClosed.

Variable S : Type.
Variable P : forall A : Type, M S A -> Prop.
Hypothesis P_ret : forall (A : Type) (x : A), P A (ret x).
Hypothesis P_bind : forall (A B : Type) (m : M S A) (k : A -> M S B),
    P A m -> (forall x, P B (k x)) -> P B (bind m k).
Hypothesis P_ext : forall (A : Type) (m m' : M S A),
    (forall s, m s = m' s) -> P A m -> P A m'.

Variable now : M S Z.
Variable op : M S error.
Hypothesis P_now : P Z now.
Hypothesis P_op : P error op.

Lemma closed_RetryLoop (fuel : nat) :
  forall (j : nat) (b : backoff.backOffTries (backoff.ExponentialBackOff S)),
    retry_policy now j b ->
    ((fuel <= j)%nat -> P error diverge) ->
    P error (backoff.RetryLoop fuel op b).
Proof.
  induction fuel as [| fuel IH]; intros j b Hpolicy Hout.
  - cbn [backoff.RetryLoop]. apply Hout. lia.
  - cbn [backoff.RetryLoop].
    apply P_bind; [exact P_op |].
    intros [e |]; [| apply P_ret].
    destruct j as [| j].
    + apply (P_ext _ (ret (Some e))); [| apply P_ret].
      intros s. unfold bind at 1.
      rewrite (NextBackOff_retry_policy now 0 b s Hpolicy). reflexivity.
    + destruct (NextBackOff_reads_clock now j b Hpolicy) as (decide & Hrun & Hnext).
      apply (P_ext _ (t <- now ;;
                      (if fst (decide t) =? backoff.Stop then ret (Some e)
                       else backoff.RetryLoop fuel op (snd (decide t))))).
      * intros s. unfold bind. rewrite Hrun. unfold bind, ret.
        destruct (now s) as [[t | msg |] s1]; try reflexivity.
        destruct (decide t) as [next b']. reflexivity.
      * apply P_bind; [exact P_now |].
        intros t. destruct (fst (decide t) =? backoff.Stop); [apply P_ret |].
        apply (IH j); [apply Hnext | intros; apply Hout; lia].
Qed.

Lemma closed_retry (fuel : nat) :
  ((fuel <= 3)%nat -> P error diverge) ->
  P unit (retry now fuel op).
Proof.
  intros Hout.
  apply (P_ext _ (_ <- now ;; t <- now ;;
                  backoff.RetryLoop fuel op (initial_policy now t) ;;; ret tt)).
  - intros s. rewrite retry_unfold. unfold bind at 1.
    destruct (now s) as [[t0 | msg |] s1]; reflexivity.
  - apply P_bind; [exact P_now |]. intros _.
    apply P_bind; [exact P_now |]. intros t.
    apply P_bind; [| intros; apply P_ret].
    apply (closed_RetryLoop fuel 3);
      [apply initial_policy_retry_policy | exact Hout].
Qed.

End RetryClosed.

(** ** Who writes to the [dataCollection] object *)

Lemma keeps_dc_ret {A : Type} (x : A) : keeps_dc (ret x).
Proof. intros a. reflexivity. Qed.

Lemma keeps_dc_panic {A : Type} (msg : string) : keeps_dc (@panic Agent A msg).
Proof. intros a. reflexivity. Qed.

Lemma keeps_dc_diverge {A : Type} : keeps_dc (@diverge Agent A).
Proof. intros a. reflexivity. Qed.

Lemma keeps_dc_get : keeps_dc get.
Proof. intros a. reflexivity. Qed.

Lemma keeps_dc_bind {A B : Type} (m : M Agent A) (k : A -> M Agent B) :
  keeps_dc m -> (forall x, keeps_dc (k x)) -> keeps_dc (bind m k).
Proof.
  intros Hm Hk a. unfold bind. specialize (Hm a).
  destruct (m a) as [[x | msg |] a1]; cbn in *;
    [rewrite Hk; exact Hm | exact Hm | exact Hm].
Qed.

Lemma keeps_dc_call {A : Type} (count : Calls -> nat) (bump : Calls -> Calls)
    (oracle : nat -> A) :
  keeps_dc (call count bump oracle).
Proof. intros a. reflexivity. Qed.

Lemma keeps_dc_emit (e : Event) : keeps_dc (emit e).
Proof. intros a. reflexivity. Qed.

Lemma keeps_dc_deref {A : Type} (p : option A) : keeps_dc (deref p).
Proof. destruct p as [x |]; intros ag; reflexivity. Qed.

Lemma keeps_dc_ext {A : Type} (m m' : M Agent A) :
  (forall a, m a = m' a) -> keeps_dc m -> keeps_dc m'.
Proof. intros Heq Hm a. rewrite <- Heq. apply Hm. Qed.

Lemma keeps_dc_retry (now : M Agent Z) (fuel : nat) (op : M Agent error) :
  keeps_dc now -> keeps_dc op -> keeps_dc (retry now fuel op).
Proof.
  intros Hnow Hop.
  apply (closed_retry Agent (@keeps_dc) (@keeps_dc_ret) (@keeps_dc_bind)
           (@keeps_dc_ext) now op Hnow Hop).
  intros _. apply keeps_dc_diverge.
Qed.

Create HintDb keeps.
#[local] Hint Resolve keeps_dc_ret keeps_dc_panic keeps_dc_diverge keeps_dc_get
  keeps_dc_call keeps_dc_emit keeps_dc_deref : keeps.

Lemma keeps_dc_getGrpcConn (env : Env) : keeps_dc (getGrpcConn env).
Proof.
  unfold getGrpcConn, Repo_Config, DialContext.
  walk @keeps_dc_bind ltac:(auto with keeps).
Qed.

Lemma keeps_dc_doReportHealthAlert (env : Env) (failurePoint : string) :
  keeps_dc (doReportHealthAlert env failurePoint).
Proof.
  unfold doReportHealthAlert, Now, CollectHealth, conn_Close.
  apply keeps_dc_bind; [apply keeps_dc_getGrpcConn |].
  walk @keeps_dc_bind ltac:(auto with keeps).
Qed.

Lemma keeps_dc_reportHealthAlert (env : Env) (fuel : nat) (failurePoint : string) :
  keeps_dc (reportHealthAlert env fuel failurePoint).
Proof.
  apply keeps_dc_retry; [apply keeps_dc_call | apply keeps_dc_doReportHealthAlert].
Qed.

Lemma keeps_dc_getPayload (env : Env) : keeps_dc (getPayload env).
Proof.
  unfold getPayload, Now, Repo_Config.
  walk @keeps_dc_bind ltac:(auto with keeps).
Qed.

(** Everything [doSendData] does after [update] leaves the object as
    [update] left it, whatever the outcome. *)
Lemma doSendData_dc (env : Env) (node : IpfsNode) (fuel : nat) (a : Agent) :
  dc (snd (doSendData env node fuel a)) = dc (snd (update env node fuel a)).
Proof.
  unfold doSendData. unfold bind at 1.
  destruct (update env node fuel a) as [[[] | msg |] a1]; cbn [snd];
    [| reflexivity | reflexivity].
  match goal with
  | |- dc (snd (?m a1)) = _ => enough (Hk : keeps_dc m) by apply Hk
  end.
  apply keeps_dc_bind; [apply keeps_dc_getPayload |].
  intros [payload err].
  pose proof (keeps_dc_reportHealthAlert env fuel) as Halert.
  pose proof (keeps_dc_getGrpcConn env) as Hconn.
  unfold UpdateMetrics, conn_Close.
  walk @keeps_dc_bind ltac:(first [apply Halert | apply Hconn | auto with keeps]).
Qed.

(** C3, as the code has it: whenever the statistics read of a sampling
    step succeeds, the stored totals afterwards are the raw byte values
    just read divided by 1024 (kilobytes, rounded down), and they stay
    so to the end of [doSendData] whatever happens to the build, the
    signature or the send. *)
Theorem doSendData_stores_kilobytes (env : Env) (node : IpfsNode) (fuel : nat)
    (a : Agent) (st : Stat) :
  NodeExchange node = Bitswap ->
  cpu_Percent_indexable (env_cpu_Percent env (n_cpu_Percent (calls a))) = true ->
  env_Stat env (n_Stat (calls a)) = (Some st, None) ->
  TotalUp (dc (snd (doSendData env node fuel a))) = DataSent st / kilobyte
  /\ TotalDown (dc (snd (doSendData env node fuel a))) = DataReceived st / kilobyte.
Proof.
  intros Hex Hcpu Hst.
  rewrite doSendData_dc.
  destruct (update_reads_stat env node fuel a st Hex Hcpu Hst)
    as (d1 & c1 & Hrun & _).
  rewrite Hrun. cbn. split; reflexivity.
Qed.

Lemma doSendData_stores_kilobytes_witness :
  fst (doSendData env_send_fails node_with_key 4 (start dc_N1))
  = Done (Some "unavailable"%string)
  /\ TotalUp (dc (snd (doSendData env_send_fails node_with_key 4 (start dc_N1))))
     = 1500 / kilobyte
  /\ TotalDown (dc (snd (doSendData env_send_fails node_with_key 4 (start dc_N1))))
     = 2600 / kilobyte.
Proof.
  split; [reflexivity |].
  apply (doSendData_stores_kilobytes env_send_fails node_with_key 4
           (start dc_N1) (sample_Stat 1500 2600));
    reflexivity.
Defined.

(** C3 as stated fails: after a sampling step that read 1500 bytes sent
    the stored total is 1, not the raw value 1500. *)
Lemma doSendData_total_is_not_raw :
  TotalUp (dc (snd (doSendData env_healthy node_with_key 4
                      (start (with_totals 1000 2000 dc_N1)))))
  <> DataSent (sample_Stat 1500 2600).
Proof.
  vm_compute. discriminate.
Qed.

(** ** Runs with the status service reachable *)

Lemma getGrpcConn_up (env : Env) (a : Agent) :
  config_readable env -> network_up env ->
  exists conn addr a',
    getGrpcConn env a = (Done (Some conn, None), a')
    /\ dc a' = dc a /\ trace a' = trace a ++ [EvDial addr].
Proof.
  intros Hcfg Hnet.
  destruct (Hcfg (n_Config (calls a))) as [c Hc].
  destruct (Hnet (n_DialContext (calls a))) as (Hdial & _ & _).
  unfold getGrpcConn. unfold_go. cbn. rewrite Hc. cbn. rewrite Hdial.
  do 3 eexists. split; [reflexivity | split; reflexivity].
Qed.

Lemma doReportHealthAlert_up (env : Env) (failurePoint : string) (a : Agent) :
  config_readable env -> network_up env ->
  exists addr alert a',
    doReportHealthAlert env failurePoint a = (Done None, a')
    /\ dc a' = dc a
    /\ nh_FailurePoint alert = failurePoint
    /\ trace a' = trace a ++ [EvDial addr; EvCollectHealth alert; EvClose].
Proof.
  intros Hcfg Hnet.
  destruct (getGrpcConn_up env a Hcfg Hnet) as (conn & addr & a1 & Hrun & Hdc & Htr).
  unfold doReportHealthAlert. unfold bind at 1. rewrite Hrun.
  destruct (Hnet (n_CollectHealth (calls a1))) as (_ & _ & Hhealth).
  unfold_go. cbn. rewrite Hhealth.
  do 3 eexists. split; [reflexivity |]. cbn.
  split; [exact Hdc |]. split.
  2: { rewrite Htr. repeat rewrite <- app_assoc. reflexivity. }
  reflexivity.
Qed.

(** A first attempt that succeeds ends [retry]; the policy has read
    the clock twice by then, once for each of its resets. *)
Lemma retry_first_success {S : Type} (now : M S Z) (fuel : nat) (op : M S error)
    (s s1 s2 s' : S) (t0 t1 : Z) :
  (0 < fuel)%nat ->
  now s = (Done t0, s1) -> now s1 = (Done t1, s2) ->
  op s2 = (Done None, s') ->
  retry now fuel op s = (Done tt, s').
Proof.
  intros Hfuel Hnow0 Hnow1 Hop. destruct fuel as [| fuel]; [lia |].
  rewrite retry_unfold, Hnow0, Hnow1. cbn [backoff.RetryLoop]. unfold bind.
  rewrite Hop. reflexivity.
Qed.

(** The state after the two clock readings [retry] starts with. *)
Lemma retry_Now_first_success (env : Env) (fuel : nat) (op : M Agent error)
    (a a' : Agent) :
  (0 < fuel)%nat ->
  op (set_calls bump_Now (set_calls bump_Now a)) = (Done None, a') ->
  retry (Now env) fuel op a = (Done tt, a').
Proof.
  intros Hfuel Hop.
  eapply retry_first_success; [exact Hfuel | reflexivity | reflexivity | exact Hop].
Qed.

Lemma reportHealthAlert_up (env : Env) (fuel : nat) (failurePoint : string)
    (a : Agent) :
  config_readable env -> network_up env -> (0 < fuel)%nat ->
  exists addr alert a',
    reportHealthAlert env fuel failurePoint a = (Done tt, a')
    /\ dc a' = dc a
    /\ nh_FailurePoint alert = failurePoint
    /\ trace a' = trace a ++ [EvDial addr; EvCollectHealth alert; EvClose].
Proof.
  intros Hcfg Hnet Hfuel.
  destruct (doReportHealthAlert_up env failurePoint
              (set_calls bump_Now (set_calls bump_Now a)) Hcfg Hnet)
    as (addr & alert & a' & Hrun & Hrest).
  exists addr, alert, a'. split; [| exact Hrest].
  apply retry_Now_first_success; assumption.
Qed.

(** A failed statistics read: [update] reports one alert, leaves the
    stored totals alone and returns. *)
Lemma update_stat_read_fails (env : Env) (node : IpfsNode) (fuel : nat)
    (a : Agent) :
  config_readable env -> network_up env -> (0 < fuel)%nat ->
  cpu_Percent_indexable (env_cpu_Percent env (n_cpu_Percent (calls a))) = true ->
  stat_read_fails env node a ->
  exists addr alert a',
    update env node fuel a = (Done tt, a')
    /\ same_totals (dc a) (dc a')
    /\ trace a' = trace a ++ [EvDial addr; EvCollectHealth alert; EvClose].
Proof.
  intros Hcfg Hnet Hfuel Hcpu Hfail.
  unfold update. unfold_go. cbn -[reportHealthAlert append].
  destruct (env_cpu_Percent env (n_cpu_Percent (calls a))) as [cpus [e|]];
    [| destruct cpus as [|c cpus]; [discriminate Hcpu |]];
    cbn -[reportHealthAlert append];
    destruct (env_GetStorageUsage env (n_GetStorageUsage (calls a))) as [storage [e'|]];
    cbn -[reportHealthAlert append];
    (destruct Hfail as [Hex | [e1 Herr]];
     [ rewrite Hex; cbn -[reportHealthAlert append]
     | destruct (NodeExchange node); cbn -[reportHealthAlert append];
       [ destruct (env_Stat env (n_Stat (calls a))) as [st err];
         cbn in Herr; subst err; cbn -[reportHealthAlert append]
       | ] ]);
    match goal with
    | |- exists _ _ _, reportHealthAlert env fuel ?fp ?a1 = _ /\ _ =>
        destruct (reportHealthAlert_up env fuel fp a1 Hcfg Hnet Hfuel)
          as (addr & alert & a' & Hrun & Hdc & _ & Htr);
        exists addr, alert, a';
        split; [exact Hrun | split; [split; rewrite Hdc; reflexivity | exact Htr]]
    end.
Qed.

Lemma getPayload_ok (env : Env) (a : Agent) :
  config_readable env ->
  (forall nd, snd (env_proto_Marshal env nd) = None) ->
  exists payload a',
    getPayload env a = (Done (payload, None), a')
    /\ dc a' = dc a /\ trace a' = trace a.
Proof.
  intros Hcfg Hmarshal.
  unfold getPayload. unfold_go. cbn.
  destruct (Hcfg (n_Config (calls a))) as [c Hc]. rewrite Hc. cbn.
  destruct (env_ParseBytes env (StorageMax c)) as [storageMax [e |]]; cbn;
    match goal with
    | |- context [env_proto_Marshal env ?nd] =>
        specialize (Hmarshal nd);
        destruct (env_proto_Marshal env nd) as [payload err];
        cbn in Hmarshal; subst err
    end;
    do 2 eexists; (split; [reflexivity | split; reflexivity]).
Qed.

Lemma count_events_app (p : Event -> bool) (t u : list Event) :
  count_events p (t ++ u) = (count_events p t + count_events p u)%nat.
Proof.
  unfold count_events. rewrite filter_app, length_app. reflexivity.
Qed.

(** With a key, a payload that builds and signs, and the status service
    reachable, what follows [update] in [doSendData] delivers the
    metrics. *)
Lemma doSendData_delivers (env : Env) (node : IpfsNode) (fuel : nat)
    (key : PrivKey) (a a1 : Agent) :
  config_readable env -> network_up env -> build_succeeds env key ->
  PrivateKey node = Some key ->
  update env node fuel a = (Done tt, a1) ->
  exists addr sm a',
    doSendData env node fuel a = (Done None, a')
    /\ dc a' = dc a1
    /\ trace a' = trace a1 ++ [EvDial addr; EvUpdateMetrics sm; EvClose].
Proof.
  intros Hcfg Hnet (Hmarshal & Hsign & Hpub) Hkey Hupd.
  unfold doSendData. unfold bind at 1. rewrite Hupd.
  destruct (getPayload_ok env a1 Hcfg Hmarshal) as (payload & a2 & Hpay & Hdc2 & Htr2).
  unfold bind at 1. rewrite Hpay. rewrite Hkey.
  specialize (Hsign payload).
  destruct (env_Sign env key payload) as [signature serr]. cbn in Hsign. subst serr.
  destruct (env_MarshalPublicKey env key) as [publicKey perr]. cbn in Hpub. subst perr.
  destruct (getGrpcConn_up env a2 Hcfg Hnet) as (conn & addr & a3 & Hconn & Hdc3 & Htr3).
  unfold bind at 1. rewrite Hconn.
  destruct (Hnet (n_UpdateMetrics (calls a3))) as (_ & Hmetrics & _).
  unfold_go. cbn. rewrite Hmetrics.
  do 3 eexists. split; [reflexivity |]. cbn.
  split; [congruence |].
  rewrite Htr3, Htr2. repeat rewrite <- app_assoc. reflexivity.
Qed.

(** C5, as the code has it: when the statistics read fails, [update]
    reports the failure through the alert path and leaves the stored
    totals unchanged, and the cycle goes on: the payload is built,
    signed and delivered.  With the configuration readable, the status
    service reachable and the build succeeding, the cycle makes exactly
    one [CollectHealth] call followed by exactly one [UpdateMetrics]
    call. *)
Theorem sendData_stat_read_fails (env : Env) (node : IpfsNode) (fuel : nat)
    (key : PrivKey) (a : Agent) :
  config_readable env -> network_up env -> build_succeeds env key ->
  PrivateKey node = Some key ->
  (0 < fuel)%nat ->
  cpu_Percent_indexable (env_cpu_Percent env (n_cpu_Percent (calls a))) = true ->
  stat_read_fails env node a ->
  exists a' addr1 alert addr2 sm,
    sendData env node fuel a = (Done tt, a')
    /\ same_totals (dc a) (dc a')
    /\ trace a' = trace a ++ [EvDial addr1; EvCollectHealth alert; EvClose;
                              EvDial addr2; EvUpdateMetrics sm; EvClose]
    /\ count_events is_CollectHealth (trace a')
       = S (count_events is_CollectHealth (trace a))
    /\ count_events is_UpdateMetrics (trace a')
       = S (count_events is_UpdateMetrics (trace a)).
Proof.
  intros Hcfg Hnet Hbuild Hkey Hfuel Hcpu Hfail.
  pose (a0 := set_calls bump_Now (set_calls bump_Now a)).
  destruct (update_stat_read_fails env node fuel a0 Hcfg Hnet Hfuel Hcpu Hfail)
    as (addr1 & alert & a1 & Hupd & Htot & Htr1).
  destruct (doSendData_delivers env node fuel key a0 a1 Hcfg Hnet Hbuild Hkey Hupd)
    as (addr2 & sm & a' & Hrun & Hdc & Htr).
  assert (Htrace : trace a' = trace a ++ [EvDial addr1; EvCollectHealth alert; EvClose;
                                          EvDial addr2; EvUpdateMetrics sm; EvClose]).
  { rewrite Htr, Htr1, <- app_assoc. reflexivity. }
  exists a', addr1, alert, addr2, sm.
  split; [apply retry_Now_first_success; assumption |].
  split; [unfold same_totals in *; rewrite Hdc; exact Htot |].
  split; [exact Htrace |].
  rewrite Htrace, !count_events_app. cbn. split; lia.
Qed.

Lemma sendData_stat_read_fails_witness :
  exists a' addr1 alert addr2 sm,
    sendData env_stat_error node_with_key 4 (start dc_N1) = (Done tt, a')
    /\ same_totals (dc (start dc_N1)) (dc a')
    /\ trace a' = trace (start dc_N1)
                  ++ [EvDial addr1; EvCollectHealth alert; EvClose;
                      EvDial addr2; EvUpdateMetrics sm; EvClose]
    /\ count_events is_CollectHealth (trace a')
       = S (count_events is_CollectHealth (trace (start dc_N1)))
    /\ count_events is_UpdateMetrics (trace a')
       = S (count_events is_UpdateMetrics (trace (start dc_N1))).
Proof.
  apply (sendData_stat_read_fails env_stat_error node_with_key 4 [1; 2; 3]
           (start dc_N1)).
  - intros k. exists (sample_Config true). reflexivity.
  - intros k. repeat split.
  - repeat split.
  - reflexivity.
  - lia.
  - reflexivity.
  - right. exists "bitswap closed"%string. reflexivity.
Defined.

(** C5 as stated fails: with [bs.Stat()] answering an error and
    everything else working, the cycle alerts once and then makes an
    [UpdateMetrics] call all the same; likewise when the exchange is not
    a bitswap. *)
Lemma sendData_stat_error_still_delivers :
  stat_read_fails env_stat_error node_with_key (start dc_N1)
  /\ count_events is_UpdateMetrics
       (trace (snd (sendData env_stat_error node_with_key 4 (start dc_N1))))
     <> 0%nat
  /\ stat_read_fails env_healthy node_other_exchange (start dc_N1)
  /\ count_events is_UpdateMetrics
       (trace (snd (sendData env_healthy node_other_exchange 4 (start dc_N1))))
     <> 0%nat.
Proof.
  split; [right; exists "bitswap closed"%string; reflexivity |].
  split; [vm_compute; discriminate |].
  split; [left; reflexivity | vm_compute; discriminate].
Qed.

(** ** A node without a private key *)

(** C7, evaluated where it fails: the node has no private key and
    everything else works.  [doSendData] reports the alert "node's
    private key is null" and makes no [UpdateMetrics] call, but the
    error it returns is [nil]. *)
Theorem doSendData_without_key_returns_nil :
  fst (doSendData env_healthy node_without_key 4 (start dc_N1)) = Done None
  /\ failure_points
       (trace (snd (doSendData env_healthy node_without_key 4 (start dc_N1))))
     = ["node's private key is null"%string]
  /\ count_events is_UpdateMetrics
       (trace (snd (doSendData env_healthy node_without_key 4 (start dc_N1))))
     = 0%nat.
Proof.
  repeat split; vm_compute; reflexivity.
Qed.

Lemma getPayload_error_is_Marshal_error (env : Env) (a a' : Agent)
    (payload : bytes) (err : error) :
  (forall nd, snd (env_proto_Marshal env nd) = None) ->
  getPayload env a = (Done (payload, err), a') -> err = None.
Proof.
  intros Hmarshal. unfold getPayload. unfold_go. cbn.
  destruct (env_Config env (n_Config (calls a))) as [[c |] [e |]]; cbn;
    try discriminate;
    try (destruct (env_ParseBytes env (StorageMax c)) as [storageMax [e' |]]; cbn);
    match goal with
    | |- context [env_proto_Marshal env ?nd] =>
        specialize (Hmarshal nd);
        destruct (env_proto_Marshal env nd) as [bs merr];
        cbn in Hmarshal; subst merr
    end;
    intros H; inversion H; reflexivity.
Qed.

(** Whatever the environment answers, without a private key and with a
    payload that serialises, [doSendData] never returns an error. *)
Lemma doSendData_without_key_never_fails (env : Env) (node : IpfsNode)
    (fuel : nat) (a : Agent) (e : string) :
  PrivateKey node = None ->
  (forall nd, snd (env_proto_Marshal env nd) = None) ->
  fst (doSendData env node fuel a) <> Done (Some e).
Proof.
  intros Hkey Hmarshal. unfold doSendData. unfold bind at 1.
  destruct (update env node fuel a) as [[[] | msg |] a1]; cbn [fst];
    [| discriminate | discriminate].
  unfold bind at 1.
  destruct (getPayload env a1) as [[[payload err] | msg |] a2] eqn:Hpay;
    cbn [fst]; [| discriminate | discriminate].
  rewrite (getPayload_error_is_Marshal_error env a1 a2 payload err Hmarshal Hpay).
  rewrite Hkey. unfold bind, ret.
  destruct (reportHealthAlert env fuel "node's private key is null" a2)
    as [[[] | msg |] a3]; cbn; discriminate.
Qed.

(** ** The scheduler *)

Lemma transport_untouched_refl (a : Agent) : transport_untouched a a.
Proof. repeat split. Qed.

Lemma transport_untouched_trans (a b c : Agent) :
  transport_untouched a b -> transport_untouched b c -> transport_untouched a c.
Proof.
  unfold transport_untouched. intuition congruence.
Qed.

(** Without consent a heartbeat reads the configuration once and does
    nothing else. *)
Lemma heartbeat_without_consent (env : Env) (node : IpfsNode) (fuel : nat)
    (a : Agent) :
  consent_withheld env ->
  exists a',
    heartbeat env node fuel a = (Done tt, a')
    /\ transport_untouched a a'
    /\ dc a' = dc a
    /\ n_Config (calls a') = S (n_Config (calls a)).
Proof.
  intros Hno. destruct (Hno (n_Config (calls a))) as (c & e & Hc & Hflag).
  unfold heartbeat. unfold_go. cbn. rewrite Hc. cbn. rewrite Hflag.
  eexists. split; [reflexivity |]. cbn. repeat split.
Qed.

Lemma tickLoop_without_consent (env : Env) (node : IpfsNode) (fuel : nat)
    (ticks : nat) :
  consent_withheld env ->
  forall a, exists a',
    tickLoop env node fuel ticks a = (Done tt, a')
    /\ transport_untouched a a'
    /\ dc a' = dc a
    /\ n_Config (calls a') = (ticks + n_Config (calls a))%nat.
Proof.
  intros Hno. induction ticks as [| ticks IH]; intros a.
  - exists a. cbn. repeat split.
  - destruct (heartbeat_without_consent env node fuel a Hno)
      as (a1 & Hrun1 & Hquiet1 & Hdc1 & Hn1).
    destruct (IH a1) as (a' & Hrun & Hquiet & Hdc & Hn).
    exists a'. cbn [tickLoop]. unfold bind. rewrite Hrun1.
    split; [exact Hrun |].
    split; [eapply transport_untouched_trans; eassumption |].
    split; [congruence | lia].
Qed.

(** C8: if every read of the configuration finds the consent flag
    false, then for any number of heartbeats the agent, started fresh,
    is still running with an empty trace and no dial, no [UpdateMetrics]
    and no [CollectHealth] call made; the configuration was read once at
    activation and once per tick. *)
Theorem collectionAgent_without_consent (env : Env) (node : IpfsNode)
    (fuel ticks : nat) (d : dataCollection) :
  consent_withheld env ->
  exists a',
    collectionAgent env node fuel ticks (start d) = (Done tt, a')
    /\ trace a' = []
    /\ count_events is_Dial (trace a') = 0%nat
    /\ count_events is_UpdateMetrics (trace a') = 0%nat
    /\ count_events is_CollectHealth (trace a') = 0%nat
    /\ n_DialContext (calls a') = 0%nat
    /\ n_UpdateMetrics (calls a') = 0%nat
    /\ n_CollectHealth (calls a') = 0%nat
    /\ n_Config (calls a') = S ticks.
Proof.
  intros Hno.
  destruct (heartbeat_without_consent env node fuel (start d) Hno)
    as (a1 & Hrun1 & Hquiet1 & _ & Hn1).
  destruct (tickLoop_without_consent env node fuel ticks Hno a1)
    as (a' & Hrun & Hquiet & _ & Hn).
  exists a'. unfold collectionAgent, bind. rewrite Hrun1.
  split; [exact Hrun |].
  destruct (transport_untouched_trans _ _ _ Hquiet1 Hquiet)
    as (Htr & Hdial & Hmetrics & Hhealth).
  cbn in Htr, Hdial, Hmetrics, Hhealth, Hn1.
  rewrite Htr, Hdial, Hmetrics, Hhealth, Hn, Hn1.
  repeat split; lia.
Qed.

Lemma collectionAgent_without_consent_witness :
  exists a',
    collectionAgent env_no_consent node_with_key 4 5 (start dc_N1) = (Done tt, a')
    /\ trace a' = []
    /\ count_events is_Dial (trace a') = 0%nat
    /\ count_events is_UpdateMetrics (trace a') = 0%nat
    /\ count_events is_CollectHealth (trace a') = 0%nat
    /\ n_DialContext (calls a') = 0%nat
    /\ n_UpdateMetrics (calls a') = 0%nat
    /\ n_CollectHealth (calls a') = 0%nat
    /\ n_Config (calls a') = 6%nat.
Proof.
  apply (collectionAgent_without_consent env_no_consent node_with_key 4 5 dc_N1).
  intros k. exists (sample_Config false), None. split; reflexivity.
Defined.

(** C9, evaluated where it fails: consent is withheld and at the first
    tick after start-up [Repo.Config()] answers [(nil, err)].  The error
    is discarded, [config.Experimental.Analytics] dereferences the nil
    pointer, and the panic ends the agent: of three ticks only the first
    is reached. *)
Theorem collectionAgent_config_error_panics :
  fst (collectionAgent env_repo_closed node_with_key 4 3 (start dc_N1))
  = Panic nil_dereference
  /\ n_Config (calls (snd (collectionAgent env_repo_closed node_with_key 4 3
                             (start dc_N1))))
     = 2%nat.
Proof.
  split; vm_compute; reflexivity.
Qed.

(** The same at any state and in any environment: a heartbeat whose
    configuration read answers a nil pointer panics. *)
Lemma heartbeat_nil_config_panics (env : Env) (node : IpfsNode) (fuel : nat)
    (a : Agent) :
  fst (env_Config env (n_Config (calls a))) = None ->
  fst (heartbeat env node fuel a) = Panic nil_dereference.
Proof.
  intros Hnil. unfold heartbeat. unfold_go. cbn.
  destruct (env_Config env (n_Config (calls a))) as [config err].
  cbn in Hnil. subst config. reflexivity.
Qed.

(** ** Failures that are contained

    Apart from the nil dereferences and the index excluded by
    [pointers_valid], no outcome of a sampler read, of the build, of the
    signature or of a network call stops the agent: every heartbeat
    returns. *)

Lemma returns_ret {A : Type} (x : A) : returns (ret x).
Proof. intros a. exists x, a. reflexivity. Qed.

Lemma returns_bind {A B : Type} (m : M Agent A) (k : A -> M Agent B) :
  returns m -> (forall x, returns (k x)) -> returns (bind m k).
Proof.
  intros Hm Hk a. destruct (Hm a) as (x & a1 & Hrun).
  destruct (Hk x a1) as (y & a2 & Hrun2).
  exists y, a2. unfold bind. rewrite Hrun. exact Hrun2.
Qed.

Lemma returns_get : returns get.
Proof. intros a. exists a, a. reflexivity. Qed.

Lemma returns_modify (f : Agent -> Agent) : returns (modify f).
Proof. intros a. exists tt, (f a). reflexivity. Qed.

Lemma returns_call {A : Type} (count : Calls -> nat) (bump : Calls -> Calls)
    (oracle : nat -> A) :
  returns (call count bump oracle).
Proof. intros a. do 2 eexists. reflexivity. Qed.

Lemma returns_emit (e : Event) : returns (emit e).
Proof. apply returns_modify. Qed.

Lemma returns_ext {A : Type} (m m' : M Agent A) :
  (forall a, m a = m' a) -> returns m -> returns m'.
Proof.
  intros Heq Hm a. destruct (Hm a) as (x & a' & Hrun).
  exists x, a'. rewrite <- Heq. exact Hrun.
Qed.

(** [retry] returns as soon as the loop bound exceeds [maxRetryTimes]:
    the fourth failure is answered by [Stop]. *)
Lemma returns_retry (now : M Agent Z) (fuel : nat) (op : M Agent error) :
  (3 < fuel)%nat -> returns now -> returns op -> returns (retry now fuel op).
Proof.
  intros Hfuel Hnow Hop.
  apply (closed_retry Agent (@returns) (@returns_ret) (@returns_bind)
           (@returns_ext) now op Hnow Hop).
  intros Hout. lia.
Qed.

Create HintDb returns.
#[local] Hint Resolve returns_ret returns_get returns_modify returns_call
  returns_emit : returns.

Section Contained.

Variable env : Env.
Variable node : IpfsNode.
Variable fuel : nat.
Hypothesis Hvalid : pointers_valid env.
Hypothesis Hfuel : (3 < fuel)%nat.

Lemma returns_Repo_Config_deref {B : Type} (k : Config -> error -> M Agent B) :
  (forall c e, returns (k c e)) ->
  returns ('(config, err) <- Repo_Config env ;; c <- deref config ;; k c err).
Proof.
  intros Hk a. destruct Hvalid as (Hcfg & _ & _). specialize (Hcfg (n_Config (calls a))).
  unfold Repo_Config. unfold_go. cbn.
  destruct (env_Config env (n_Config (calls a))) as [[c |] err];
    [| exfalso; apply Hcfg; reflexivity].
  cbn. apply Hk.
Qed.

Lemma returns_getGrpcConn : returns (getGrpcConn env).
Proof.
  intros a. destruct Hvalid as (Hcfg & _ & _). specialize (Hcfg (n_Config (calls a))).
  unfold getGrpcConn. unfold_go. cbn.
  destruct (env_Config env (n_Config (calls a))) as [[c |] [e |]]; cbn;
    try (exfalso; apply Hcfg; reflexivity);
    try (do 2 eexists; reflexivity).
  destruct (env_DialContext env (n_DialContext (calls a))) as [e |];
    do 2 eexists; reflexivity.
Qed.

Lemma returns_doReportHealthAlert (failurePoint : string) :
  returns (doReportHealthAlert env failurePoint).
Proof.
  unfold doReportHealthAlert, Now, CollectHealth, conn_Close.
  apply returns_bind; [apply returns_getGrpcConn |].
  walk @returns_bind ltac:(auto with returns).
Qed.

Lemma returns_reportHealthAlert (failurePoint : string) :
  returns (reportHealthAlert env fuel failurePoint).
Proof.
  apply returns_retry;
    [exact Hfuel | apply returns_call | apply returns_doReportHealthAlert].
Qed.

Lemma returns_update : returns (update env node fuel).
Proof.
  intros a. destruct Hvalid as (_ & Hstat & Hcpu).
  specialize (Hcpu (n_cpu_Percent (calls a))).
  specialize (Hstat (n_Stat (calls a))).
  unfold update. unfold_go. cbn -[reportHealthAlert append].
  destruct (env_cpu_Percent env (n_cpu_Percent (calls a))) as [cpus [e |]];
    [| destruct cpus as [| c cpus]; [discriminate Hcpu |]];
    cbn -[reportHealthAlert append];
    destruct (env_GetStorageUsage env (n_GetStorageUsage (calls a)))
      as [storage [e' |]];
    cbn -[reportHealthAlert append];
    (destruct (NodeExchange node); cbn -[reportHealthAlert append];
     [ destruct (env_Stat env (n_Stat (calls a))) as [[st |] [e1 |]];
       cbn -[reportHealthAlert append];
       try (exfalso; apply Hstat; reflexivity);
       try (do 2 eexists; reflexivity)
     | ]);
    apply returns_reportHealthAlert.
Qed.

Lemma returns_getPayload : returns (getPayload env).
Proof.
  intros a. destruct Hvalid as (Hcfg & _ & _). specialize (Hcfg (n_Config (calls a))).
  unfold getPayload. unfold_go. cbn.
  destruct (env_Config env (n_Config (calls a))) as [[c |] [e |]]; cbn;
    try (exfalso; apply Hcfg; reflexivity);
    try (destruct (env_ParseBytes env (StorageMax c)) as [storageMax [e' |]]; cbn);
    match goal with
    | |- context [env_proto_Marshal env ?nd] =>
        destruct (env_proto_Marshal env nd) as [bs [merr |]]
    end;
    do 2 eexists; reflexivity.
Qed.

Lemma returns_doSendData : returns (doSendData env node fuel).
Proof.
  unfold doSendData, UpdateMetrics, conn_Close.
  apply returns_bind; [apply returns_update |]. intros _.
  apply returns_bind; [apply returns_getPayload |]. intros [payload err].
  pose proof returns_reportHealthAlert as Halert.
  pose proof returns_getGrpcConn as Hconn.
  walk @returns_bind ltac:(first [apply Halert | apply Hconn | auto with returns]).
Qed.

Lemma returns_sendData : returns (sendData env node fuel).
Proof.
  apply returns_retry; [exact Hfuel | apply returns_call | apply returns_doSendData].
Qed.

Lemma returns_heartbeat : returns (heartbeat env node fuel).
Proof.
  unfold heartbeat.
  apply (returns_Repo_Config_deref
           (fun c _ => if Analytics c then sendData env node fuel else ret tt)).
  intros c _. destruct (Analytics c); [apply returns_sendData | apply returns_ret].
Qed.

(** Whatever the sampler, the build, the signature and the network
    answer, the agent is still running after any number of ticks. *)
Lemma returns_collectionAgent (ticks : nat) :
  returns (collectionAgent env node fuel ticks).
Proof.
  unfold collectionAgent.
  apply returns_bind; [apply returns_heartbeat |]. intros _.
  induction ticks as [| ticks IH]; cbn [tickLoop].
  - apply returns_ret.
  - apply returns_bind; [apply returns_heartbeat | intros _; exact IH].
Qed.

End Contained.

Lemma returns_collectionAgent_witness :
  returns (collectionAgent env_send_fails node_with_key 4 2).
Proof.
  apply (returns_collectionAgent env_send_fails node_with_key 4).
  - split; [| split]; intros k; [discriminate | discriminate | reflexivity].
  - lia.
Defined.

(** * Further properties of the code *)

(** ** durationToSeconds (lines 75-77) *)

(** For a duration that is not negative, [durationToSeconds] is the
    number of whole seconds it contains: the conversion to [uint64]
    loses nothing. *)
Theorem durationToSeconds_whole_seconds (d : Z) :
  0 <= d < 2 ^ 63 ->
  durationToSeconds d = d / second
  /\ durationToSeconds d * second <= d < (durationToSeconds d + 1) * second.
Proof.
  intros Hd. unfold durationToSeconds.
  assert (Hsec : Z.quot second 1 = second) by reflexivity.
  rewrite Hsec. rewrite Z.quot_div_nonneg by (unfold second; lia).
  assert (Hq : 0 <= d / second < 2 ^ 63).
  { split.
    - apply Z.div_pos; unfold second; lia.
    - apply Z.div_lt_upper_bound; unfold second; lia. }
  rewrite wrap64_small by (unfold is_uint64, uint64_modulus; lia).
  split; [reflexivity |].
  pose proof (Z.mul_div_le d second ltac:(unfold second; lia)).
  pose proof (Z.mul_succ_div_gt d second ltac:(unfold second; lia)).
  lia.
Qed.

Lemma durationToSeconds_whole_seconds_witness :
  durationToSeconds 2500000000 = 2500000000 / second
  /\ durationToSeconds 2500000000 * second <= 2500000000
     < (durationToSeconds 2500000000 + 1) * second.
Proof.
  apply (durationToSeconds_whole_seconds 2500000000). lia.
Defined.

(** A negative duration of a second or more (a start time ahead of the
    clock) is not clamped: the quotient is negative and the conversion
    to [uint64] wraps it to [2^64 - |d| / second]. *)
Theorem durationToSeconds_negative_wraps (d : Z) :
  - 2 ^ 63 <= d <= - second ->
  durationToSeconds d = 2 ^ 64 - (- d) / second
  /\ 2 ^ 63 < durationToSeconds d.
Proof.
  intros Hd.
  assert (Hlt : (- d) / second < 2 ^ 63).
  { apply Z.div_lt_upper_bound; unfold second in *; lia. }
  assert (Hge : 1 <= (- d) / second).
  { apply Z.div_le_lower_bound; unfold second in *; lia. }
  assert (E : durationToSeconds d = 2 ^ 64 - (- d) / second).
  { unfold durationToSeconds.
    assert (Hsec : Z.quot second 1 = second) by reflexivity.
    rewrite Hsec.
    replace d with (- (- d)) at 1 by lia.
    rewrite Z.quot_opp_l by (unfold second; lia).
    rewrite Z.quot_div_nonneg by (unfold second in *; lia).
    unfold wrap64, uint64_modulus.
    replace (- ((- d) / second))
      with ((2 ^ 64 - (- d) / second) + (-1) * 2 ^ 64) by ring.
    rewrite Z.mod_add by lia.
    apply Z.mod_small. lia. }
  rewrite E. split; [reflexivity | lia].
Qed.

Lemma durationToSeconds_negative_wraps_witness :
  durationToSeconds (- 3000000000) = 2 ^ 64 - (- - 3000000000) / second
  /\ 2 ^ 63 < durationToSeconds (- 3000000000).
Proof.
  apply (durationToSeconds_negative_wraps (- 3000000000)).
  unfold second. lia.
Defined.

(** ** update: the up time (line 121) *)

Lemma update_sets_UpTime (env : Env) (node : IpfsNode) (fuel : nat) (a : Agent) :
  UpTime (dc (snd (update env node fuel a)))
  = durationToSeconds (time_Sub (env_Now env (n_Now (calls a))) (startTime (dc a))).
Proof.
  unfold update. unfold_go.
  cbn -[reportHealthAlert append durationToSeconds time_Sub].
  destruct (env_cpu_Percent env (n_cpu_Percent (calls a))) as [cpus [e |]];
    [| destruct cpus as [| c cpus]];
    cbn -[reportHealthAlert append durationToSeconds time_Sub];
    try reflexivity;
    destruct (env_GetStorageUsage env (n_GetStorageUsage (calls a)))
      as [storage [e' |]];
    cbn -[reportHealthAlert append durationToSeconds time_Sub];
    (destruct (NodeExchange node);
     cbn -[reportHealthAlert append durationToSeconds time_Sub];
     [ destruct (env_Stat env (n_Stat (calls a))) as [[st |] [e1 |]];
       cbn -[reportHealthAlert append durationToSeconds time_Sub]
     | ]);
    try reflexivity;
    rewrite keeps_dc_reportHealthAlert; reflexivity.
Qed.

(** Whatever else happens in the step, [update] leaves in [UpTime] the
    whole seconds between the start time and the clock's reading when
    these are less than 2^63 nanoseconds (some 292 years) apart; when
    the clock is further ahead than that, as it is of a start time left
    at the zero [time.Time], [time.Since] saturates and [UpTime] is
    9223372036. *)
Theorem update_UpTime (env : Env) (node : IpfsNode) (fuel : nat) (a : Agent) :
  (0 <= env_Now env (n_Now (calls a)) - startTime (dc a) < 2 ^ 63 ->
   UpTime (dc (snd (update env node fuel a)))
   = (env_Now env (n_Now (calls a)) - startTime (dc a)) / second)
  /\ (2 ^ 63 <= env_Now env (n_Now (calls a)) - startTime (dc a) ->
      UpTime (dc (snd (update env node fuel a))) = 9223372036).
Proof.
  rewrite update_sets_UpTime.
  split; intros Helapsed.
  - unfold time_Sub, minDuration, maxDuration.
    rewrite Z.min_r, Z.max_r by lia.
    unfold durationToSeconds.
    assert (Hsec : Z.quot second 1 = second) by reflexivity.
    rewrite Hsec. rewrite Z.quot_div_nonneg by (unfold second; lia).
    apply Z.mod_small. unfold uint64_modulus. split.
    + apply Z.div_pos; unfold second; lia.
    + apply Z.div_lt_upper_bound; unfold second; lia.
  - unfold time_Sub, minDuration, maxDuration.
    rewrite Z.min_l, Z.max_r by lia.
    reflexivity.
Qed.

Lemma update_UpTime_witness :
  UpTime (dc (snd (update env_healthy node_with_key 4 (start dc_N1)))) = 60
  /\ UpTime (dc (snd (update env_wall_clock node_with_key 4 (start dc_N1))))
     = 9223372036.
Proof.
  split.
  - apply (proj1 (update_UpTime env_healthy node_with_key 4 (start dc_N1))).
    vm_compute. split; [discriminate | reflexivity].
  - apply (proj2 (update_UpTime env_wall_clock node_with_key 4 (start dc_N1))).
    vm_compute. discriminate.
Defined.

(** ** retry: how often the operation runs *)

(** For an operation that always returns, under a clock read off the
    state, [retry] returns too, having run the operation at least once
    and at most four times; it stops before the fourth run only when a
    run succeeded or more than the policy's [MaxElapsedTime] has
    elapsed since [retry] started. *)
Theorem retry_runs_one_to_four {S : Type} (op : M S error) (clock : S -> Z)
    (fuel : nat) (s0 : S) :
  (3 < fuel)%nat ->
  (forall s, exists r s', op s = (Done r, s')) ->
  exists s' n,
    retry (counted_clock clock) fuel (counted op) (s0, 0%nat) = (Done tt, (s', n))
    /\ (1 <= n <= 4)%nat
    /\ ((n < 4)%nat ->
        (exists s, op s = (Done None, s'))
        \/ backoff.DefaultMaxElapsedTime < time_Sub (clock s') (clock s0)).
Proof.
  intros Hfuel Hop.
  destruct fuel as [|[|[|[|fuel]]]]; try lia.
  pose proof (initial_policy_live (fun sn : S * nat => clock (fst sn)) (clock s0))
    as L3.
  fold (counted_clock clock) in L3.
  assert (Hrun : forall (sa sb : S) (n : nat) r,
             op sa = (r, sb) -> counted op (sa, n) = (r, (sb, Datatypes.S n)))
    by (intros; apply counted_run; assumption).
  assert (Hup : forall t, time_is_up (clock s0) t = true ->
                          backoff.DefaultMaxElapsedTime < time_Sub t (clock s0)).
  { intros t H. unfold time_is_up in H. rewrite Z.gtb_ltb in H.
    apply Z.ltb_lt. exact H. }
  destruct (Hop s0) as ([e1 |] & s1 & H1).
  2: { exists s1, 1%nat. split; [| split; [lia | intros _; left; exists s0; exact H1]].
       apply (retry_counted op clock _ s0 None).
       apply RetryLoop_success, Hrun, H1. }
  destruct (RetryLoop_failed_run _ _ (Datatypes.S (Datatypes.S (Datatypes.S fuel)))
              _ (counted op) _ _ _ _ L3 (Hrun _ _ 0%nat _ H1)) as (b2 & E1 & L2).
  cbn [fst] in E1.
  destruct (time_is_up (clock s0) (clock s1)) eqn:T1.
  { exists s1, 1%nat. split; [| split; [lia | intros _; right; apply Hup, T1]].
    apply (retry_counted op clock _ s0 (Some e1)). exact E1. }
  destruct (Hop s1) as ([e2 |] & s2 & H2).
  2: { exists s2, 2%nat. split; [| split; [lia | intros _; left; exists s1; exact H2]].
       apply (retry_counted op clock _ s0 None). rewrite E1.
       apply RetryLoop_success, Hrun, H2. }
  destruct (RetryLoop_failed_run _ _ (Datatypes.S (Datatypes.S fuel))
              _ (counted op) _ _ _ _ L2 (Hrun _ _ 1%nat _ H2)) as (b1 & E2 & L1).
  cbn [fst] in E2.
  destruct (time_is_up (clock s0) (clock s2)) eqn:T2.
  { exists s2, 2%nat. split; [| split; [lia | intros _; right; apply Hup, T2]].
    apply (retry_counted op clock _ s0 (Some e2)). rewrite E1. exact E2. }
  destruct (Hop s2) as ([e3 |] & s3 & H3).
  2: { exists s3, 3%nat. split; [| split; [lia | intros _; left; exists s2; exact H3]].
       apply (retry_counted op clock _ s0 None). rewrite E1, E2.
       apply RetryLoop_success, Hrun, H3. }
  destruct (RetryLoop_failed_run _ _ (Datatypes.S fuel)
              _ (counted op) _ _ _ _ L1 (Hrun _ _ 2%nat _ H3)) as (b0 & E3 & L0).
  cbn [fst] in E3.
  destruct (time_is_up (clock s0) (clock s3)) eqn:T3.
  { exists s3, 3%nat. split; [| split; [lia | intros _; right; apply Hup, T3]].
    apply (retry_counted op clock _ s0 (Some e3)). rewrite E1, E2. exact E3. }
  destruct L0 as (P0 & _).
  destruct (Hop s3) as ([e4 |] & s4 & H4).
  - exists s4, 4%nat. split; [| split; lia].
    apply (retry_counted op clock _ s0 (Some e4)). rewrite E1, E2, E3.
    apply (RetryLoop_last_run (counted_clock clock) fuel (counted op) b0 _ _ e4 P0).
    apply Hrun. exact H4.
  - exists s4, 4%nat. split; [| split; lia].
    apply (retry_counted op clock _ s0 None). rewrite E1, E2, E3.
    apply RetryLoop_success, Hrun, H4.
Qed.

Lemma retry_runs_one_to_four_witness :
  exists s' n,
    retry (counted_clock (fun _ : nat => 0)) 4 (counted flaky) (1%nat, 0%nat)
    = (Done tt, (s', n))
    /\ (1 <= n <= 4)%nat
    /\ ((n < 4)%nat ->
        (exists s, flaky s = (Done None, s'))
        \/ backoff.DefaultMaxElapsedTime < time_Sub 0 0).
Proof.
  apply (retry_runs_one_to_four flaky (fun _ => 0) 4 1%nat); [lia |].
  intros s. unfold flaky. do 2 eexists. reflexivity.
Defined.

(** ** Relations kept by the agent's operations *)

Lemma snd_bind_ret {A B : Type} (m : M Agent A) (y : B) (a : Agent) :
  snd (bind m (fun _ => ret y) a) = snd (m a).
Proof.
  unfold bind, ret. destruct (m a) as [[x | msg |] a1]; reflexivity.
Qed.

Section Preserved.

Variables R T : Agent -> Agent -> Prop.
Hypothesis R_refl : forall a, R a a.
Hypothesis R_trans : forall a b c, R a b -> R b c -> R a c.
Hypothesis R_T : forall a b, R a b -> T a b.
Hypothesis R_then_T : forall a b c, R a b -> T b c -> T a c.

Lemma preserves_ret {A : Type} (x : A) : preserves R (ret x).
Proof. intros a. apply R_refl. Qed.

Lemma preserves_get : preserves R get.
Proof. intros a. apply R_refl. Qed.

Lemma preserves_panic {A : Type} (msg : string) : preserves R (@panic Agent A msg).
Proof. intros a. apply R_refl. Qed.

Lemma preserves_bind {A B : Type} (m : M Agent A) (k : A -> M Agent B) :
  preserves R m -> (forall x, preserves R (k x)) -> preserves R (bind m k).
Proof.
  intros Hm Hk a. unfold bind. specialize (Hm a).
  destruct (m a) as [[x | msg |] a1]; cbn in *; [| exact Hm | exact Hm].
  eapply R_trans; [exact Hm | apply Hk].
Qed.

Lemma preserves_ext {A : Type} (m m' : M Agent A) :
  (forall a, m a = m' a) -> preserves R m -> preserves R m'.
Proof. intros Heq Hm a. rewrite <- Heq. apply Hm. Qed.

Lemma preserves_retry (now : M Agent Z) (fuel : nat) (op : M Agent error) :
  preserves R now -> preserves R op -> preserves R (retry now fuel op).
Proof.
  intros Hnow Hop.
  apply (closed_retry Agent (fun A => @preserves A R) (@preserves_ret)
           (@preserves_bind) (@preserves_ext) now op Hnow Hop).
  intros _ a. apply R_refl.
Qed.

Variable env : Env.
Variable node : IpfsNode.
Variable fuel : nat.

(** [doSendData] is [update], [getPayload], and then either an alert
    or the delivery of the envelope built from the payload. *)
Lemma preserves_doSendData :
  preserves R (update env node fuel) ->
  preserves R (getPayload env) ->
  (forall failurePoint, preserves R (reportHealthAlert env fuel failurePoint)) ->
  (forall key payload,
      PrivateKey node = Some key ->
      snd (env_Sign env key payload) = None ->
      snd (env_MarshalPublicKey env key) = None ->
      preserves T (deliver env (envelope env key payload))) ->
  preserves T (doSendData env node fuel).
Proof.
  intros Hupdate Hpayload Halert Hdeliver a.
  unfold doSendData. unfold bind at 1.
  specialize (Hupdate a).
  destruct (update env node fuel a) as [[[] | msg |] a1]; cbn [snd] in *;
    [| apply R_T; exact Hupdate | apply R_T; exact Hupdate].
  unfold bind at 1.
  specialize (Hpayload a1).
  destruct (getPayload env a1) as [[[payload err] | msg |] a2]; cbn [snd] in *;
    [| apply R_T; eapply R_trans; eassumption
     | apply R_T; eapply R_trans; eassumption].
  assert (Ha2 : R a a2) by (eapply R_trans; eassumption).
  assert (Hreport : forall failurePoint (e : error),
             T a (snd ((reportHealthAlert env fuel failurePoint ;;; ret e) a2))).
  { intros failurePoint e. rewrite snd_bind_ret.
    apply R_T. eapply R_trans; [exact Ha2 | apply Halert]. }
  destruct err as [e |]; [apply Hreport |].
  destruct (PrivateKey node) as [key |] eqn:Hkey; [| apply Hreport].
  destruct (env_Sign env key payload) as [signature [e |]] eqn:Hsign;
    [apply Hreport |].
  destruct (env_MarshalPublicKey env key) as [publicKey [e |]] eqn:Hpub;
    [apply Hreport |].
  assert (Hd : T a2 (snd (deliver env (envelope env key payload) a2))).
  { apply Hdeliver; [reflexivity | rewrite Hsign | rewrite Hpub]; reflexivity. }
  unfold envelope in Hd. rewrite Hsign, Hpub in Hd. cbn [fst] in Hd.
  eapply R_then_T; [exact Ha2 | exact Hd].
Qed.

End Preserved.

Section PreservedScheduler.

Variable R : Agent -> Agent -> Prop.
Hypothesis R_refl : forall a, R a a.
Hypothesis R_trans : forall a b c, R a b -> R b c -> R a c.
Variable env : Env.
Variable node : IpfsNode.
Variable fuel : nat.
Hypothesis R_Config : preserves R (Repo_Config env).
Hypothesis R_doSendData : preserves R (doSendData env node fuel).
Hypothesis R_Now : preserves R (Now env).

Lemma preserves_sendData : preserves R (sendData env node fuel).
Proof.
  apply preserves_retry; assumption.
Qed.

Lemma preserves_heartbeat : preserves R (heartbeat env node fuel).
Proof.
  unfold heartbeat.
  apply preserves_bind; [assumption | assumption |].
  intros [config err].
  apply preserves_bind; [assumption | |].
  - destruct config; intros a; apply R_refl.
  - intros c. destruct (Analytics c);
      [apply preserves_sendData | apply preserves_ret; assumption].
Qed.

Lemma preserves_tickLoop (ticks : nat) : preserves R (tickLoop env node fuel ticks).
Proof.
  induction ticks as [| ticks IH]; cbn [tickLoop].
  - apply preserves_ret; assumption.
  - apply preserves_bind; [assumption | apply preserves_heartbeat |].
    intros _. exact IH.
Qed.

Lemma preserves_collectionAgent (ticks : nat) :
  preserves R (collectionAgent env node fuel ticks).
Proof.
  unfold collectionAgent.
  apply preserves_bind; [assumption | apply preserves_heartbeat |].
  intros _. apply preserves_tickLoop.
Qed.

End PreservedScheduler.

(** ** The identity fields are never written after start-up *)

Lemma same_identity_refl (a : Agent) : same_identity a a.
Proof. reflexivity. Qed.

Lemma same_identity_trans (a b c : Agent) :
  same_identity a b -> same_identity b c -> same_identity a c.
Proof. unfold same_identity. congruence. Qed.

Lemma keeps_dc_same_identity {A : Type} (m : M Agent A) :
  keeps_dc m -> preserves same_identity m.
Proof.
  intros Hm a. unfold same_identity. rewrite Hm. reflexivity.
Qed.

Lemma same_identity_update (env : Env) (node : IpfsNode) (fuel : nat) :
  preserves same_identity (update env node fuel).
Proof.
  pose proof (fun fp => keeps_dc_same_identity _ (keeps_dc_reportHealthAlert env fuel fp))
    as Halert.
  unfold update, ReadMemStats, Now, cpu_Percent, GetStorageUsage, bs_Stat,
    call, deref, index0.
  walk (fun A B => @preserves_bind same_identity same_identity_trans A B)
       ltac:(first [apply Halert | intros ?; reflexivity]).
Qed.

Lemma keeps_dc_deliver (env : Env) (sm : SignedMetrics) : keeps_dc (deliver env sm).
Proof.
  unfold deliver, UpdateMetrics, conn_Close.
  apply keeps_dc_bind; [apply keeps_dc_getGrpcConn |].
  walk @keeps_dc_bind ltac:(auto with keeps).
Qed.

Lemma same_identity_doSendData (env : Env) (node : IpfsNode) (fuel : nat) :
  preserves same_identity (doSendData env node fuel).
Proof.
  apply (preserves_doSendData same_identity same_identity).
  - exact same_identity_trans.
  - auto.
  - exact same_identity_trans.
  - apply same_identity_update.
  - apply keeps_dc_same_identity, keeps_dc_getPayload.
  - intros fp. apply keeps_dc_same_identity, keeps_dc_reportHealthAlert.
  - intros key payload _ _ _. apply keeps_dc_same_identity, keeps_dc_deliver.
Qed.

(** The identity fields ([startTime], [NodeID], [HVal], [CPUInfo],
    [BTFSVersion], [OSType], [ArchType]) are the same after any number
    of heartbeats as when the agent started, in every environment and
    whatever the outcome. *)
Theorem collectionAgent_keeps_identity (env : Env) (node : IpfsNode)
    (fuel ticks : nat) (a : Agent) :
  identity (dc (snd (collectionAgent env node fuel ticks a))) = identity (dc a).
Proof.
  apply (preserves_collectionAgent same_identity
           same_identity_refl same_identity_trans).
  - apply keeps_dc_same_identity. unfold Repo_Config. apply keeps_dc_call.
  - apply same_identity_doSendData.
  - apply keeps_dc_same_identity. unfold Now. apply keeps_dc_call.
Qed.

(** ** Who calls UpdateMetrics, and how often *)

Lemma no_metrics_sent_refl (a : Agent) : no_metrics_sent a a.
Proof. split; reflexivity. Qed.

Lemma no_metrics_sent_trans (a b c : Agent) :
  no_metrics_sent a b -> no_metrics_sent b c -> no_metrics_sent a c.
Proof. unfold no_metrics_sent. intuition congruence. Qed.

Lemma no_metrics_sent_reportHealthAlert (env : Env) (fuel : nat)
    (failurePoint : string) :
  preserves no_metrics_sent (reportHealthAlert env fuel failurePoint).
Proof.
  apply (preserves_retry no_metrics_sent no_metrics_sent_refl no_metrics_sent_trans);
    [intros a; split; reflexivity |].
  unfold doReportHealthAlert, getGrpcConn, Now, Repo_Config, DialContext,
    CollectHealth, conn_Close, emit, call, deref.
  walk (fun A B => @preserves_bind no_metrics_sent no_metrics_sent_trans A B)
       ltac:(count_leaf count_events_app).
Qed.

Lemma no_metrics_sent_update (env : Env) (node : IpfsNode) (fuel : nat) :
  preserves no_metrics_sent (update env node fuel).
Proof.
  pose proof (no_metrics_sent_reportHealthAlert env fuel) as Halert.
  unfold update, ReadMemStats, Now, cpu_Percent, GetStorageUsage, bs_Stat,
    call, deref, index0.
  walk (fun A B => @preserves_bind no_metrics_sent no_metrics_sent_trans A B)
       ltac:(first [apply Halert | count_leaf count_events_app]).
Qed.

Lemma no_metrics_sent_getPayload (env : Env) :
  preserves no_metrics_sent (getPayload env).
Proof.
  unfold getPayload, Now, Repo_Config, call, deref.
  walk (fun A B => @preserves_bind no_metrics_sent no_metrics_sent_trans A B)
       ltac:(count_leaf count_events_app).
Qed.

Lemma no_metrics_sent_Repo_Config (env : Env) :
  preserves no_metrics_sent (Repo_Config env).
Proof. intros a. split; reflexivity. Qed.

(** A node without a private key never delivers metrics: over any
    number of heartbeats, in every environment and with consent given
    or not, no [UpdateMetrics] call is made. *)
Theorem collectionAgent_without_key_sends_no_metrics (env : Env) (node : IpfsNode)
    (fuel ticks : nat) (a : Agent) :
  PrivateKey node = None ->
  n_UpdateMetrics (calls (snd (collectionAgent env node fuel ticks a)))
  = n_UpdateMetrics (calls a)
  /\ count_events is_UpdateMetrics (trace (snd (collectionAgent env node fuel ticks a)))
     = count_events is_UpdateMetrics (trace a).
Proof.
  intros Hkey.
  apply (preserves_collectionAgent no_metrics_sent
           no_metrics_sent_refl no_metrics_sent_trans).
  - apply no_metrics_sent_Repo_Config.
  - apply (preserves_doSendData no_metrics_sent no_metrics_sent).
    + exact no_metrics_sent_trans.
    + auto.
    + exact no_metrics_sent_trans.
    + apply no_metrics_sent_update.
    + apply no_metrics_sent_getPayload.
    + apply no_metrics_sent_reportHealthAlert.
    + intros key payload Hsome. rewrite Hkey in Hsome. discriminate Hsome.
  - intros a0. split; reflexivity.
Qed.

Lemma collectionAgent_without_key_sends_no_metrics_witness :
  n_UpdateMetrics
    (calls (snd (collectionAgent env_healthy node_without_key 4 3 (start dc_N1))))
  = n_UpdateMetrics (calls (start dc_N1))
  /\ count_events is_UpdateMetrics
       (trace (snd (collectionAgent env_healthy node_without_key 4 3 (start dc_N1))))
     = count_events is_UpdateMetrics (trace (start dc_N1)).
Proof.
  apply (collectionAgent_without_key_sends_no_metrics env_healthy
           node_without_key 4 3 (start dc_N1)).
  reflexivity.
Defined.

(** How much a counter the clock leaves alone can grow over a
    [backoff.RetryLoop] whose policy allows [j] more retries. *)
Lemma RetryLoop_adds_at_most (f : Agent -> nat) (n : nat) (now : M Agent Z)
    (op : M Agent error) :
  (forall a, f (snd (now a)) = f a) ->
  (forall a, (f (snd (op a)) <= f a + n)%nat) ->
  forall (fuel j : nat)
         (b : backoff.backOffTries (backoff.ExponentialBackOff Agent)) (a : Agent),
    retry_policy now j b ->
    (f (snd (backoff.RetryLoop fuel op b a)) <= f a + S j * n)%nat.
Proof.
  intros Hnow Hop. induction fuel as [| fuel IH]; intros j b a Hpolicy.
  - cbn. nia.
  - cbn [backoff.RetryLoop]. unfold bind at 1.
    specialize (Hop a).
    destruct (op a) as [[[e |] | msg |] a1]; cbn [snd] in *; try (cbn; nia).
    pose proof (NextBackOff_retry_policy now j b a1 Hpolicy) as Hnext.
    destruct j as [| j].
    + unfold bind at 1. rewrite Hnext. cbn. nia.
    + specialize (Hnow a1). unfold bind at 1.
      destruct (now a1) as [[t | msg |] a2]; cbn [snd] in Hnow.
      * destruct Hnext as (next & b' & Hrun & Hpolicy'). rewrite Hrun.
        destruct (next =? backoff.Stop); [cbn; nia |].
        specialize (IH j b' a2 Hpolicy'). nia.
      * rewrite Hnext. cbn. nia.
      * rewrite Hnext. cbn. nia.
Qed.

Lemma retry_adds_at_most (f : Agent -> nat) (n : nat) (now : M Agent Z)
    (op : M Agent error) (fuel : nat) (a : Agent) :
  (forall a, f (snd (now a)) = f a) ->
  (forall a, (f (snd (op a)) <= f a + n)%nat) ->
  (f (snd (retry now fuel op a)) <= f a + 4 * n)%nat.
Proof.
  intros Hnow Hop. rewrite retry_unfold.
  pose proof (Hnow a) as H0.
  destruct (now a) as [[t0 | msg |] a1]; cbn [snd] in H0; try (cbn; lia).
  pose proof (Hnow a1) as H1.
  destruct (now a1) as [[t1 | msg |] a2]; cbn [snd] in H1; try (cbn; lia).
  rewrite snd_bind_ret.
  pose proof (RetryLoop_adds_at_most f n now op Hnow Hop fuel 3
                (initial_policy now t1) a2 (initial_policy_retry_policy now t1)).
  lia.
Qed.

Lemma at_most_one_metrics_deliver (env : Env) (sm : SignedMetrics) :
  preserves at_most_one_metrics (deliver env sm).
Proof.
  intros a. unfold at_most_one_metrics, deliver, getGrpcConn. unfold_go. cbn.
  destruct (env_Config env (n_Config (calls a))) as [[c |] [e |]]; cbn; try lia.
  destruct (env_DialContext env (n_DialContext (calls a))) as [e |]; cbn; try lia.
  destruct (env_UpdateMetrics env (n_UpdateMetrics (calls a))) as [e |]; cbn; lia.
Qed.

Lemma at_most_one_metrics_doSendData (env : Env) (node : IpfsNode) (fuel : nat) :
  preserves at_most_one_metrics (doSendData env node fuel).
Proof.
  apply (preserves_doSendData no_metrics_sent at_most_one_metrics).
  - exact no_metrics_sent_trans.
  - unfold no_metrics_sent, at_most_one_metrics. intros a b [Hn _]. lia.
  - unfold no_metrics_sent, at_most_one_metrics. intros a b c [Hn _] Hle. lia.
  - apply no_metrics_sent_update.
  - apply no_metrics_sent_getPayload.
  - apply no_metrics_sent_reportHealthAlert.
  - intros key payload _ _ _. apply at_most_one_metrics_deliver.
Qed.

(** One cycle makes at most four [UpdateMetrics] calls, in every
    environment and for every loop bound: at most one per attempt, and
    [retry] makes at most four attempts. *)
Theorem sendData_at_most_four_deliveries (env : Env) (node : IpfsNode)
    (fuel : nat) (a : Agent) :
  (n_UpdateMetrics (calls (snd (sendData env node fuel a)))
   <= n_UpdateMetrics (calls a) + 4)%nat.
Proof.
  unfold sendData.
  apply (retry_adds_at_most (fun a => n_UpdateMetrics (calls a)) 1);
    [intros a0; reflexivity |].
  apply at_most_one_metrics_doSendData.
Qed.

(** One alert makes at most four [CollectHealth] calls and at most four
    dials, and never an [UpdateMetrics] call. *)
Theorem reportHealthAlert_at_most_four_calls (env : Env) (fuel : nat)
    (failurePoint : string) (a : Agent) :
  (n_CollectHealth (calls (snd (reportHealthAlert env fuel failurePoint a)))
   <= n_CollectHealth (calls a) + 4)%nat
  /\ (n_DialContext (calls (snd (reportHealthAlert env fuel failurePoint a)))
      <= n_DialContext (calls a) + 4)%nat
  /\ n_UpdateMetrics (calls (snd (reportHealthAlert env fuel failurePoint a)))
     = n_UpdateMetrics (calls a).
Proof.
  unfold reportHealthAlert. split; [| split].
  - apply (retry_adds_at_most (fun a => n_CollectHealth (calls a)) 1);
      [intros a0; reflexivity |].
    intros a0. unfold doReportHealthAlert, getGrpcConn. unfold_go. cbn.
    destruct (env_Config env (n_Config (calls a0))) as [[c |] [e |]]; cbn; try lia.
    destruct (env_DialContext env (n_DialContext (calls a0))) as [e |]; cbn; lia.
  - apply (retry_adds_at_most (fun a => n_DialContext (calls a)) 1);
      [intros a0; reflexivity |].
    intros a0. unfold doReportHealthAlert, getGrpcConn. unfold_go. cbn.
    destruct (env_Config env (n_Config (calls a0))) as [[c |] [e |]]; cbn; try lia.
    destruct (env_DialContext env (n_DialContext (calls a0))) as [e |]; cbn; lia.
  - apply (no_metrics_sent_reportHealthAlert env fuel failurePoint a).
Qed.

(** ** Every connection opened is closed *)

Lemma keeps_released_refl (env : Env) (a : Agent) : keeps_released env a a.
Proof. intros H. exact H. Qed.

Lemma keeps_released_trans (env : Env) (a b c : Agent) :
  keeps_released env a b -> keeps_released env b c -> keeps_released env a c.
Proof. unfold keeps_released. auto. Qed.

Lemma keeps_released_doReportHealthAlert (env : Env) (failurePoint : string) :
  preserves (keeps_released env) (doReportHealthAlert env failurePoint).
Proof.
  intros a Hrel. unfold doReportHealthAlert, getGrpcConn. unfold_go.
  unfold connections_released in *. cbn -[count_events].
  destruct (env_Config env (n_Config (calls a))) as [[c |] [e |]];
    cbn -[count_events]; try exact Hrel.
  destruct (env_DialContext env (n_DialContext (calls a))) as [e |] eqn:Hdial;
    cbn -[count_events]; rewrite ?count_events_app, Hdial, Hrel; cbn; lia.
Qed.

Lemma keeps_released_reportHealthAlert (env : Env) (fuel : nat)
    (failurePoint : string) :
  preserves (keeps_released env) (reportHealthAlert env fuel failurePoint).
Proof.
  apply (preserves_retry (keeps_released env)
           (keeps_released_refl env) (keeps_released_trans env));
    [intros a Hrel; exact Hrel |].
  apply keeps_released_doReportHealthAlert.
Qed.

Lemma keeps_released_update (env : Env) (node : IpfsNode) (fuel : nat) :
  preserves (keeps_released env) (update env node fuel).
Proof.
  pose proof (keeps_released_reportHealthAlert env fuel) as Halert.
  unfold update, ReadMemStats, Now, cpu_Percent, GetStorageUsage, bs_Stat,
    call, deref, index0.
  walk (fun A B => @preserves_bind (keeps_released env) (keeps_released_trans env) A B)
       ltac:(first [apply Halert | released_leaf]).
Qed.

Lemma keeps_released_getPayload (env : Env) :
  preserves (keeps_released env) (getPayload env).
Proof.
  unfold getPayload, Now, Repo_Config, call, deref.
  walk (fun A B => @preserves_bind (keeps_released env) (keeps_released_trans env) A B)
       ltac:(released_leaf).
Qed.

Lemma keeps_released_deliver (env : Env) (sm : SignedMetrics) :
  preserves (keeps_released env) (deliver env sm).
Proof.
  intros a Hrel. unfold deliver, getGrpcConn. unfold_go.
  unfold connections_released in *. cbn -[count_events].
  destruct (env_Config env (n_Config (calls a))) as [[c |] [e |]];
    cbn -[count_events]; try exact Hrel.
  destruct (env_DialContext env (n_DialContext (calls a))) as [e |] eqn:Hdial;
    cbn -[count_events];
    [ rewrite ?count_events_app, Hdial, Hrel; cbn; lia |].
  destruct (env_UpdateMetrics env (n_UpdateMetrics (calls a))) as [e |];
    cbn -[count_events]; rewrite ?count_events_app, Hdial, Hrel; cbn; lia.
Qed.

(** Connections never leak: if every connection opened before was
    closed, then after any number of heartbeats the [Close] calls made
    are as many as the dials that succeeded, in every environment and
    whatever the outcome of the RPCs. *)
Theorem collectionAgent_releases_connections (env : Env) (node : IpfsNode)
    (fuel ticks : nat) (a : Agent) :
  connections_released env a ->
  connections_released env (snd (collectionAgent env node fuel ticks a)).
Proof.
  apply (preserves_collectionAgent (keeps_released env)
           (keeps_released_refl env) (keeps_released_trans env)).
  - intros a0 H. exact H.
  - apply (preserves_doSendData (keeps_released env) (keeps_released env)).
    + exact (keeps_released_trans env).
    + auto.
    + exact (keeps_released_trans env).
    + apply keeps_released_update.
    + apply keeps_released_getPayload.
    + apply keeps_released_reportHealthAlert.
    + intros key payload _ _ _. apply keeps_released_deliver.
  - intros a0 H. exact H.
Qed.

Lemma collectionAgent_releases_connections_witness :
  connections_released env_send_fails
    (snd (collectionAgent env_send_fails node_with_key 4 2 (start dc_N1))).
Proof.
  apply (collectionAgent_releases_connections env_send_fails node_with_key 4 2
           (start dc_N1)).
  reflexivity.
Defined.

(** ** Every delivery is signed *)

Lemma keeps_signed_refl (env : Env) (key : PrivKey) (a : Agent) :
  keeps_signed env key a a.
Proof. intros H. exact H. Qed.

Lemma keeps_signed_trans (env : Env) (key : PrivKey) (a b c : Agent) :
  keeps_signed env key a b -> keeps_signed env key b c -> keeps_signed env key a c.
Proof. unfold keeps_signed. auto. Qed.

Lemma keeps_signed_reportHealthAlert (env : Env) (key : PrivKey) (fuel : nat)
    (failurePoint : string) :
  preserves (keeps_signed env key) (reportHealthAlert env fuel failurePoint).
Proof.
  apply (preserves_retry (keeps_signed env key)
           (keeps_signed_refl env key) (keeps_signed_trans env key));
    [intros a Hall; exact Hall |].
  unfold doReportHealthAlert, getGrpcConn, Now, Repo_Config, DialContext,
    CollectHealth, conn_Close, emit, call, deref.
  walk (fun A B => @preserves_bind (keeps_signed env key)
                     (keeps_signed_trans env key) A B)
       ltac:(signed_leaf).
Qed.

Lemma keeps_signed_update (env : Env) (key : PrivKey) (node : IpfsNode)
    (fuel : nat) :
  preserves (keeps_signed env key) (update env node fuel).
Proof.
  pose proof (keeps_signed_reportHealthAlert env key fuel) as Halert.
  unfold update, ReadMemStats, Now, cpu_Percent, GetStorageUsage, bs_Stat,
    call, deref, index0.
  walk (fun A B => @preserves_bind (keeps_signed env key)
                     (keeps_signed_trans env key) A B)
       ltac:(first [apply Halert | signed_leaf]).
Qed.

Lemma keeps_signed_getPayload (env : Env) (key : PrivKey) :
  preserves (keeps_signed env key) (getPayload env).
Proof.
  unfold getPayload, Now, Repo_Config, call, deref.
  walk (fun A B => @preserves_bind (keeps_signed env key)
                     (keeps_signed_trans env key) A B)
       ltac:(signed_leaf).
Qed.

Lemma keeps_signed_deliver (env : Env) (key : PrivKey) (payload : bytes) :
  snd (env_Sign env key payload) = None ->
  snd (env_MarshalPublicKey env key) = None ->
  preserves (keeps_signed env key) (deliver env (envelope env key payload)).
Proof.
  intros Hsign Hpub a Hall.
  assert (Hsm : signed_by env key (EvUpdateMetrics (envelope env key payload))).
  { split; [reflexivity | split; assumption]. }
  unfold deliver, getGrpcConn. unfold_go. cbn.
  destruct (env_Config env (n_Config (calls a))) as [[c |] [e |]];
    cbn; try exact Hall.
  destruct (env_DialContext env (n_DialContext (calls a))) as [e |]; cbn;
    [apply Forall_app; split; [exact Hall | repeat constructor] |].
  destruct (env_UpdateMetrics env (n_UpdateMetrics (calls a))) as [e |]; cbn;
    repeat (apply Forall_app; split); try exact Hall;
    (apply Forall_cons; [first [exact Hsm | repeat constructor] | apply Forall_nil]).
Qed.

(** Every [UpdateMetrics] call the agent makes carries an envelope whose
    signature is that of the payload it ships, under the node's private
    key, with that key's public key, and neither [Sign] nor
    [MarshalPublicKey] had reported an error. *)
Theorem collectionAgent_deliveries_signed (env : Env) (node : IpfsNode)
    (key : PrivKey) (fuel ticks : nat) (a : Agent) :
  PrivateKey node = Some key ->
  Forall (signed_by env key) (trace a) ->
  Forall (signed_by env key) (trace (snd (collectionAgent env node fuel ticks a))).
Proof.
  intros Hkey.
  apply (preserves_collectionAgent (keeps_signed env key)
           (keeps_signed_refl env key) (keeps_signed_trans env key)).
  - intros a0 H. exact H.
  - apply (preserves_doSendData (keeps_signed env key) (keeps_signed env key)).
    + exact (keeps_signed_trans env key).
    + auto.
    + exact (keeps_signed_trans env key).
    + apply keeps_signed_update.
    + apply keeps_signed_getPayload.
    + apply keeps_signed_reportHealthAlert.
    + intros key0 payload Hsome Hsign Hpub.
      rewrite Hkey in Hsome. injection Hsome as <-.
      apply keeps_signed_deliver; assumption.
  - intros a0 H. exact H.
Qed.

Lemma collectionAgent_deliveries_signed_witness :
  Forall (signed_by env_healthy [1; 2; 3])
    (trace (snd (collectionAgent env_healthy node_with_key 4 2 (start dc_N1)))).
Proof.
  apply (collectionAgent_deliveries_signed env_healthy node_with_key [1; 2; 3] 4 2
           (start dc_N1)).
  - reflexivity.
  - constructor.
Defined.

(** ** A send that fails raises no alert *)

Lemma no_alert_sent_refl (a : Agent) : no_alert_sent a a.
Proof. split; reflexivity. Qed.

Lemma no_alert_sent_trans (a b c : Agent) :
  no_alert_sent a b -> no_alert_sent b c -> no_alert_sent a c.
Proof. unfold no_alert_sent. intuition congruence. Qed.

Lemma no_alert_sent_getPayload (env : Env) : preserves no_alert_sent (getPayload env).
Proof.
  unfold getPayload, Now, Repo_Config, call, deref.
  walk (fun A B => @preserves_bind no_alert_sent no_alert_sent_trans A B)
       ltac:(count_leaf count_events_app).
Qed.

Lemma no_alert_sent_deliver (env : Env) (sm : SignedMetrics) :
  preserves no_alert_sent (deliver env sm).
Proof.
  unfold deliver, getGrpcConn, Repo_Config, DialContext, UpdateMetrics,
    conn_Close, emit, call, deref.
  walk (fun A B => @preserves_bind no_alert_sent no_alert_sent_trans A B)
       ltac:(count_leaf count_events_app).
Qed.

(** With the sampler's reads succeeding [update] returns and uses
    neither the network nor the alert path. *)
Lemma update_sampling_works (env : Env) (node : IpfsNode) (fuel : nat) (a : Agent) :
  sampling_works env node ->
  exists a1,
    update env node fuel a = (Done tt, a1)
    /\ transport_untouched a a1.
Proof.
  intros (Hex & Hstat & Hcpu).
  destruct (Hstat (n_Stat (calls a))) as [st Hst].
  specialize (Hcpu (n_cpu_Percent (calls a))).
  unfold update. rewrite Hex. unfold_go. cbn.
  destruct (env_cpu_Percent env (n_cpu_Percent (calls a))) as [cpus [e|]];
    [| destruct cpus as [|c cpus]; [discriminate Hcpu |]];
    cbn;
    destruct (env_GetStorageUsage env (n_GetStorageUsage (calls a))) as [storage [e'|]];
    cbn; rewrite Hst; cbn;
    eexists; (split; [reflexivity | repeat split]).
Qed.

Lemma no_alert_sent_doSendData (env : Env) (node : IpfsNode) (fuel : nat)
    (key : PrivKey) :
  sampling_works env node -> build_succeeds env key -> PrivateKey node = Some key ->
  preserves no_alert_sent (doSendData env node fuel).
Proof.
  intros Hsampling (Hmarshal & Hsign & Hpub) Hkey a.
  destruct (update_sampling_works env node fuel a Hsampling)
    as (a1 & Hupd & Htr & _ & _ & Hhealth).
  assert (Ha1 : no_alert_sent a a1).
  { split; [exact Hhealth | rewrite Htr; reflexivity]. }
  unfold doSendData. unfold bind at 1. rewrite Hupd.
  unfold bind at 1.
  pose proof (no_alert_sent_getPayload env a1) as Hpay.
  destruct (getPayload env a1) as [[[payload err] | msg |] a2] eqn:Hrun;
    cbn [snd] in *;
    [| eapply no_alert_sent_trans; eassumption
     | eapply no_alert_sent_trans; eassumption].
  rewrite (getPayload_error_is_Marshal_error env a1 a2 payload err Hmarshal Hrun).
  rewrite Hkey.
  specialize (Hsign payload).
  destruct (env_Sign env key payload) as [signature serr]. cbn in Hsign. subst serr.
  destruct (env_MarshalPublicKey env key) as [publicKey perr]. cbn in Hpub. subst perr.
  eapply no_alert_sent_trans; [exact Ha1 |].
  eapply no_alert_sent_trans; [exact Hpay |].
  apply (no_alert_sent_deliver env
           {| Payload := payload; Signature := signature; PublicKey := publicKey |} a2).
Qed.

(** While the sampler's reads, the serialisation and the signature
    work, the agent never takes the alert path: whatever the
    configuration reads, the dials and the [UpdateMetrics] calls answer
    (errors included), no [CollectHealth] call is made over any number
    of heartbeats. *)
Theorem collectionAgent_send_failures_raise_no_alert (env : Env) (node : IpfsNode)
    (key : PrivKey) (fuel ticks : nat) (a : Agent) :
  sampling_works env node -> build_succeeds env key -> PrivateKey node = Some key ->
  n_CollectHealth (calls (snd (collectionAgent env node fuel ticks a)))
  = n_CollectHealth (calls a)
  /\ count_events is_CollectHealth (trace (snd (collectionAgent env node fuel ticks a)))
     = count_events is_CollectHealth (trace a).
Proof.
  intros Hsampling Hbuild Hkey.
  apply (preserves_collectionAgent no_alert_sent
           no_alert_sent_refl no_alert_sent_trans).
  - intros a0. split; reflexivity.
  - apply (no_alert_sent_doSendData env node fuel key); assumption.
  - intros a0. split; reflexivity.
Qed.

Lemma collectionAgent_send_failures_raise_no_alert_witness :
  n_UpdateMetrics
    (calls (snd (collectionAgent env_send_fails node_with_key 4 1 (start dc_N1))))
  = 8%nat
  /\ n_CollectHealth
       (calls (snd (collectionAgent env_send_fails node_with_key 4 1 (start dc_N1))))
     = n_CollectHealth (calls (start dc_N1))
  /\ count_events is_CollectHealth
       (trace (snd (collectionAgent env_send_fails node_with_key 4 1 (start dc_N1))))
     = count_events is_CollectHealth (trace (start dc_N1)).
Proof.
  split; [reflexivity |].
  apply (collectionAgent_send_failures_raise_no_alert env_send_fails
           node_with_key [1; 2; 3] 4 1 (start dc_N1)).
  - split; [reflexivity | split; intros k; [eexists |]; reflexivity].
  - repeat split.
  - reflexivity.
Defined.

(** ** What a healthy cycle delivers *)

Lemma getPayload_builds (env : Env) (a : Agent) :
  config_readable env ->
  (forall nd, snd (env_proto_Marshal env nd) = None) ->
  exists nd a',
    getPayload env a = (Done (fst (env_proto_Marshal env nd), None), a')
    /\ dc a' = dc a /\ trace a' = trace a
    /\ reports (dc a) nd.
Proof.
  intros Hcfg Hmarshal.
  unfold getPayload. unfold_go. cbn.
  destruct (Hcfg (n_Config (calls a))) as [c Hc]. rewrite Hc. cbn.
  destruct (env_ParseBytes env (StorageMax c)) as [storageMax [e |]]; cbn;
    match goal with
    | |- context [env_proto_Marshal env ?nd] =>
        exists nd;
        specialize (Hmarshal nd);
        destruct (env_proto_Marshal env nd) as [payload err];
        cbn in Hmarshal; subst err
    end;
    eexists; (split; [reflexivity | repeat split]).
Qed.

(** One cycle in which everything works delivers, in one attempt and
    without any alert, the signed record of the object as the sampling
    step of that same attempt left it: its totals are the statistics
    just read, in kilobytes, and its interval is computed against the
    totals stored before. *)
Theorem sendData_delivers_the_sample (env : Env) (node : IpfsNode) (fuel : nat)
    (key : PrivKey) (a : Agent) (st : Stat) :
  config_readable env -> network_up env -> build_succeeds env key ->
  PrivateKey node = Some key ->
  (0 < fuel)%nat ->
  NodeExchange node = Bitswap ->
  cpu_Percent_indexable (env_cpu_Percent env (n_cpu_Percent (calls a))) = true ->
  env_Stat env (n_Stat (calls a)) = (Some st, None) ->
  exists a' addr nd,
    sendData env node fuel a = (Done tt, a')
    /\ trace a'
       = trace a ++ [EvDial addr;
                     EvUpdateMetrics (envelope env key (fst (env_proto_Marshal env nd)));
                     EvClose]
    /\ reports (dc a') nd
    /\ nd_TotalUpload nd = DataSent st / kilobyte
    /\ nd_TotalDownload nd = DataReceived st / kilobyte
    /\ nd_Upload nd = valOrZero (sub64 (DataSent st) (TotalUp (dc a))) / kilobyte
    /\ nd_Download nd
       = valOrZero (sub64 (DataReceived st) (TotalDown (dc a))) / kilobyte
    /\ nd_BlocksUp nd = BlocksSent st /\ nd_BlocksDown nd = BlocksReceived st
    /\ nd_PeersConnected nd = Z.of_nat (List.length (Peers st)).
Proof.
  intros Hcfg Hnet (Hmarshal & Hsign & Hpub) Hkey Hfuel Hex Hcpu Hst.
  pose (a0 := set_calls bump_Now (set_calls bump_Now a)).
  destruct (update_reads_stat env node fuel a0 st Hex Hcpu Hst)
    as (d1 & c1 & Hupd & Hup1 & Hdown1).
  change (trace a0) with (trace a) in Hupd.
  change (dc a0) with (dc a) in Hup1, Hdown1.
  set (a1 := {| dc := applyStat st d1; calls := c1; trace := trace a |}) in *.
  destruct (getPayload_builds env a1 Hcfg Hmarshal)
    as (nd & a2 & Hpay & Hdc2 & Htr2 & Hrep).
  destruct (getGrpcConn_up env a2 Hcfg Hnet) as (conn & addr & a3 & Hconn & Hdc3 & Htr3).
  destruct (Hnet (n_UpdateMetrics (calls a3))) as (_ & Hmetrics & _).
  assert (Hrun : exists a',
             doSendData env node fuel a0 = (Done None, a')
             /\ dc a' = dc a1
             /\ trace a'
                = trace a ++ [EvDial addr;
                              EvUpdateMetrics
                                (envelope env key (fst (env_proto_Marshal env nd)));
                              EvClose]).
  { unfold doSendData. unfold bind at 1. rewrite Hupd.
    unfold bind at 1. rewrite Hpay. rewrite Hkey.
    unfold envelope.
    specialize (Hsign (fst (env_proto_Marshal env nd))).
    destruct (env_Sign env key (fst (env_proto_Marshal env nd))) as [signature serr].
    cbn in Hsign. subst serr.
    destruct (env_MarshalPublicKey env key) as [publicKey perr].
    cbn in Hpub. subst perr.
    unfold bind at 1. rewrite Hconn.
    unfold_go. cbn. rewrite Hmetrics.
    eexists. split; [reflexivity |]. cbn.
    split; [rewrite Hdc3, Hdc2; reflexivity |].
    rewrite Htr3, Htr2. cbn. repeat rewrite <- app_assoc. reflexivity. }
  destruct Hrun as (a' & Hrun & Hdc & Htr).
  exists a', addr, nd.
  split; [apply retry_Now_first_success; assumption |].
  split; [exact Htr |].
  split; [rewrite Hdc; exact Hrep |].
  unfold reports in Hrep. cbn [a1 dc applyStat NodeID BTFSVersion ArchType OSType
    CPUInfo CPUUsed MemUsed StorageUsed UpTime Upload Download TotalUp TotalDown
    BlocksUp BlocksDown NumPeers] in Hrep.
  rewrite <- Hup1, <- Hdown1.
  intuition congruence.
Qed.

Lemma sendData_delivers_the_sample_witness :
  exists a' addr nd,
    sendData env_healthy node_with_key 1 (start (with_totals 1 2 dc_N1))
    = (Done tt, a')
    /\ trace a'
       = trace (start (with_totals 1 2 dc_N1))
         ++ [EvDial addr;
             EvUpdateMetrics
               (envelope env_healthy [1; 2; 3]
                  (fst (env_proto_Marshal env_healthy nd)));
             EvClose]
    /\ reports (dc a') nd
    /\ nd_TotalUpload nd = DataSent (sample_Stat 1500 2600) / kilobyte
    /\ nd_TotalDownload nd = DataReceived (sample_Stat 1500 2600) / kilobyte
    /\ nd_Upload nd
       = valOrZero (sub64 (DataSent (sample_Stat 1500 2600))
                      (TotalUp (dc (start (with_totals 1 2 dc_N1))))) / kilobyte
    /\ nd_Download nd
       = valOrZero (sub64 (DataReceived (sample_Stat 1500 2600))
                      (TotalDown (dc (start (with_totals 1 2 dc_N1))))) / kilobyte
    /\ nd_BlocksUp nd = BlocksSent (sample_Stat 1500 2600)
    /\ nd_BlocksDown nd = BlocksReceived (sample_Stat 1500 2600)
    /\ nd_PeersConnected nd = Z.of_nat (List.length (Peers (sample_Stat 1500 2600))).
Proof.
  apply (sendData_delivers_the_sample env_healthy node_with_key 1 [1; 2; 3]
           (start (with_totals 1 2 dc_N1)) (sample_Stat 1500 2600)).
  - intros k. exists (sample_Config true). reflexivity.
  - intros k. repeat split.
  - repeat split.
  - reflexivity.
  - lia.
  - reflexivity.
  - reflexivity.
  - reflexivity.
Defined.

(** ** With consent given, one delivery per heartbeat *)

Lemma consent_given_config_readable (env : Env) :
  consent_given env -> config_readable env.
Proof.
  intros H k. destruct (H k) as (c & Hc & _). exists c. exact Hc.
Qed.

Lemma heartbeat_delivers (env : Env) (node : IpfsNode) (fuel : nat)
    (key : PrivKey) (a : Agent) :
  consent_given env -> sampling_works env node -> network_up env ->
  build_succeeds env key -> PrivateKey node = Some key -> (0 < fuel)%nat ->
  exists a',
    heartbeat env node fuel a = (Done tt, a')
    /\ count_events is_UpdateMetrics (trace a')
       = S (count_events is_UpdateMetrics (trace a))
    /\ count_events is_CollectHealth (trace a')
       = count_events is_CollectHealth (trace a).
Proof.
  intros Hconsent Hsampling Hnet Hbuild Hkey Hfuel.
  pose proof (consent_given_config_readable env Hconsent) as Hcfg.
  destruct (Hconsent (n_Config (calls a))) as (c & Hc & Hflag).
  unfold heartbeat. unfold_go. cbn -[sendData]. rewrite Hc. cbn -[sendData].
  rewrite Hflag.
  match goal with
  | |- exists a', sendData env node fuel ?a0 = _ /\ _ => set (a0' := a0)
  end.
  pose (a0 := set_calls bump_Now (set_calls bump_Now a0')).
  destruct (update_sampling_works env node fuel a0 Hsampling)
    as (a1 & Hupd & Htr1 & _).
  destruct (doSendData_delivers env node fuel key a0 a1 Hcfg Hnet Hbuild Hkey Hupd)
    as (addr & sm & a' & Hrun & _ & Htr).
  exists a'. split; [apply retry_Now_first_success; assumption |].
  rewrite Htr, Htr1. cbn [a0 a0' trace set_calls].
  rewrite !count_events_app. cbn. split; lia.
Qed.

(** When every configuration read finds consent given and the sampler,
    the build and the status service all work, the agent delivers
    exactly once at start-up and once at every tick, and never alerts:
    after [ticks] heartbeats it is still running and has made
    [ticks + 1] [UpdateMetrics] calls and no [CollectHealth] call. *)
Theorem collectionAgent_delivers_every_heartbeat (env : Env) (node : IpfsNode)
    (fuel : nat) (key : PrivKey) (ticks : nat) (d : dataCollection) :
  consent_given env -> sampling_works env node -> network_up env ->
  build_succeeds env key -> PrivateKey node = Some key -> (0 < fuel)%nat ->
  exists a',
    collectionAgent env node fuel ticks (start d) = (Done tt, a')
    /\ count_events is_UpdateMetrics (trace a') = S ticks
    /\ count_events is_CollectHealth (trace a') = 0%nat.
Proof.
  intros Hconsent Hsampling Hnet Hbuild Hkey Hfuel.
  assert (Hloop : forall n a, exists a',
             tickLoop env node fuel n a = (Done tt, a')
             /\ count_events is_UpdateMetrics (trace a')
                = (n + count_events is_UpdateMetrics (trace a))%nat
             /\ count_events is_CollectHealth (trace a')
                = count_events is_CollectHealth (trace a)).
  { induction n as [| n IH]; intros a.
    - exists a. repeat split.
    - destruct (heartbeat_delivers env node fuel key a
                  Hconsent Hsampling Hnet Hbuild Hkey Hfuel)
        as (a1 & Hrun1 & Hm1 & Hh1).
      destruct (IH a1) as (a' & Hrun & Hm & Hh).
      exists a'. cbn [tickLoop]. unfold bind. rewrite Hrun1.
      split; [exact Hrun | split; lia]. }
  destruct (heartbeat_delivers env node fuel key (start d)
              Hconsent Hsampling Hnet Hbuild Hkey Hfuel)
    as (a1 & Hrun1 & Hm1 & Hh1).
  destruct (Hloop ticks a1) as (a' & Hrun & Hm & Hh).
  exists a'. unfold collectionAgent, bind. rewrite Hrun1.
  split; [exact Hrun |].
  cbn in Hm1, Hh1. split; lia.
Qed.

Lemma collectionAgent_delivers_every_heartbeat_witness :
  exists a',
    collectionAgent env_healthy node_with_key 1 3 (start dc_N1) = (Done tt, a')
    /\ count_events is_UpdateMetrics (trace a') = 4%nat
    /\ count_events is_CollectHealth (trace a') = 0%nat.
Proof.
  apply (collectionAgent_delivers_every_heartbeat env_healthy node_with_key 1
           [1; 2; 3] 3 dc_N1).
  - intros k. exists (sample_Config true). split; reflexivity.
  - split; [reflexivity | split; intros k; [eexists |]; reflexivity].
  - intros k. repeat split.
  - repeat split.
  - reflexivity.
  - lia.
Defined.

(** ** Host reads that fail are silent *)

(** When [cpu.Percent] and [GetStorageUsage] answer errors, [update]
    raises no alert for them: it keeps the values sampled before in
    [CPUUsed] and [StorageUsed] and goes on to the statistics read. *)
Theorem update_host_errors_keep_stale_values (env : Env) (node : IpfsNode)
    (fuel : nat) (a : Agent) (st : Stat) (e1 e2 : string) :
  NodeExchange node = Bitswap ->
  snd (env_cpu_Percent env (n_cpu_Percent (calls a))) = Some e1 ->
  snd (env_GetStorageUsage env (n_GetStorageUsage (calls a))) = Some e2 ->
  env_Stat env (n_Stat (calls a)) = (Some st, None) ->
  exists a',
    update env node fuel a = (Done tt, a')
    /\ CPUUsed (dc a') = CPUUsed (dc a)
    /\ StorageUsed (dc a') = StorageUsed (dc a)
    /\ TotalUp (dc a') = DataSent st / kilobyte
    /\ transport_untouched a a'.
Proof.
  intros Hex Hcpu Hstorage Hst.
  unfold update. rewrite Hex. unfold_go. cbn.
  destruct (env_cpu_Percent env (n_cpu_Percent (calls a))) as [cpus cerr].
  cbn in Hcpu. subst cerr. cbn.
  destruct (env_GetStorageUsage env (n_GetStorageUsage (calls a))) as [storage serr].
  cbn in Hstorage. subst serr.
  cbn. rewrite Hst. cbn.
  eexists. split; [reflexivity |]. cbn. repeat split.
Qed.

Lemma update_host_errors_keep_stale_values_witness :
  exists a',
    update env_host_errors
      node_with_key 4 (start dc_N1)
    = (Done tt, a')
    /\ CPUUsed (dc a') = CPUUsed (dc (start dc_N1))
    /\ StorageUsed (dc a') = StorageUsed (dc (start dc_N1))
    /\ TotalUp (dc a') = DataSent (sample_Stat 1500 2600) / kilobyte
    /\ transport_untouched (start dc_N1) a'.
Proof.
  apply (update_host_errors_keep_stale_values env_host_errors node_with_key 4
           (start dc_N1)
           (sample_Stat 1500 2600) "no cpu times"%string "repo closed"%string);
    reflexivity.
Defined.

(** ** Initialize *)

(** Started while consent is withheld, the agent runs with a blank
    identity and never acquires one: [Initialize] fills the identity
    fields only inside its consent branch, yet starts the agent outside
    it, also for a node that has no identity.  After any number of
    heartbeats, whatever the later configuration reads say, [NodeID],
    [BTFSVersion] and the other identity fields are still empty. *)
Theorem Initialize_without_consent_blank_identity (env : Env) (host : Host)
    (fuel ticks : nat) (hn : HostNode) (BTFSVersion hValue : string)
    (a : Agent) (c : Config) :
  env_Config env (n_Config (calls a)) = (Some c, None) ->
  Analytics c = false ->
  fst (Initialize env host (Some hn) BTFSVersion hValue a) = Done (Some (host_node hn))
  /\ identity
       (dc (snd (InitializeAndRun env host fuel ticks (Some hn) BTFSVersion hValue a)))
     = (0, "", "", "", "", "", "")%string.
Proof.
  intros Hc Hflag.
  assert (Hinit : Initialize env host (Some hn) BTFSVersion hValue a
                  = (Done (Some (host_node hn)),
                     set_dc (fun _ => new_dataCollection) (set_calls bump_Config a))).
  { unfold Initialize. unfold_go. cbn. rewrite Hc. cbn. rewrite Hflag. reflexivity. }
  split; [rewrite Hinit; reflexivity |].
  unfold InitializeAndRun. unfold bind at 1. rewrite Hinit.
  match goal with
  | |- identity (dc (snd (collectionAgent env ?node fuel ticks ?a0))) = _ =>
      change (same_identity a0 (snd (collectionAgent env node fuel ticks a0)))
  end.
  apply (preserves_collectionAgent same_identity
           same_identity_refl same_identity_trans).
  - apply keeps_dc_same_identity. unfold Repo_Config. apply keeps_dc_call.
  - apply same_identity_doSendData.
  - apply keeps_dc_same_identity. unfold Now. apply keeps_dc_call.
Qed.

Lemma Initialize_without_consent_blank_identity_witness :
  fst (Initialize env_late_consent sample_Host (Some sample_HostNode) "1.0" "h"
         (start dc_N1))
  = Done (Some (host_node sample_HostNode))
  /\ identity
       (dc (snd (InitializeAndRun env_late_consent sample_Host 4 2
                   (Some sample_HostNode) "1.0" "h" (start dc_N1))))
     = (0, "", "", "", "", "", "")%string.
Proof.
  apply (Initialize_without_consent_blank_identity env_late_consent sample_Host 4 2
           sample_HostNode "1.0" "h" (start dc_N1) (sample_Config false));
    reflexivity.
Defined.

(** With consent given and [cpu.Info()] answering an error or at least
    one entry: a node without identity gets no agent at all, ever; a
    node with an identity gets one whose identity fields are its
    printed id, the version and hash passed in, the host's OS and
    architecture, the clock reading as start time and the first CPU
    model name (empty when [cpu.Info()] failed), and whose counters are
    all zero.  Nothing is sent by [Initialize] itself. *)
Theorem Initialize_with_consent (env : Env) (host : Host) (hn : HostNode)
    (BTFSVersion hValue : string) (a : Agent) (c : Config) :
  env_Config env (n_Config (calls a)) = (Some c, None) ->
  Analytics c = true ->
  host_cpu_Info host <> ([], None) ->
  exists a',
    snd (Initialize env host (Some hn) BTFSVersion hValue a) = a'
    /\ transport_untouched a a'
    /\ (Identity hn = ""%string ->
        fst (Initialize env host (Some hn) BTFSVersion hValue a) = Done None)
    /\ (Identity hn <> ""%string ->
        fst (Initialize env host (Some hn) BTFSVersion hValue a)
        = Done (Some (host_node hn))
        /\ identity (dc a')
           = (env_Now env (n_Now (calls a)),
              host_Pretty host (Identity hn), hValue,
              match host_cpu_Info host with
              | (ModelName :: _, None) => ModelName
              | _ => ""%string
              end,
              BTFSVersion, host_GOOS host, host_GOARCH host)
        /\ TotalUp (dc a') = 0 /\ TotalDown (dc a') = 0
        /\ Upload (dc a') = 0 /\ Download (dc a') = 0).
Proof.
  intros Hc Hflag Hcpu.
  eexists. split; [reflexivity |].
  unfold Initialize. unfold_go. cbn. rewrite Hc. cbn. rewrite Hflag.
  destruct (host_cpu_Info host) as [[| ModelName infoStats] [e |]]; cbn;
    try (exfalso; apply Hcpu; reflexivity);
    (destruct (Identity hn =? "")%string eqn:Hid; cbn;
     [ apply String.eqb_eq in Hid | apply String.eqb_neq in Hid ];
     (split; [repeat split |]);
     (split; [intros Hempty | intros Hsome]);
     try reflexivity; try contradiction;
     repeat split).
Qed.

Lemma Initialize_with_consent_witness :
  exists a',
    snd (Initialize env_healthy sample_Host (Some sample_HostNode) "1.0" "h"
           (start dc_N1)) = a'
    /\ transport_untouched (start dc_N1) a'
    /\ (Identity sample_HostNode = ""%string ->
        fst (Initialize env_healthy sample_Host (Some sample_HostNode) "1.0" "h"
               (start dc_N1)) = Done None)
    /\ (Identity sample_HostNode <> ""%string ->
        fst (Initialize env_healthy sample_Host (Some sample_HostNode) "1.0" "h"
               (start dc_N1))
        = Done (Some (host_node sample_HostNode))
        /\ identity (dc a')
           = (env_Now env_healthy (n_Now (calls (start dc_N1))),
              host_Pretty sample_Host (Identity sample_HostNode), "h"%string,
              match host_cpu_Info sample_Host with
              | (ModelName :: _, None) => ModelName
              | _ => ""%string
              end,
              "1.0"%string, host_GOOS sample_Host, host_GOARCH sample_Host)
        /\ TotalUp (dc a') = 0 /\ TotalDown (dc a') = 0
        /\ Upload (dc a') = 0 /\ Download (dc a') = 0).
Proof.
  apply (Initialize_with_consent env_healthy sample_Host sample_HostNode
           "1.0" "h" (start dc_N1) (sample_Config true)).
  - reflexivity.
  - reflexivity.
  - discriminate.
Defined.

(** With consent given, a [cpu.Info()] that answers no entry and no
    error makes [Initialize] panic at [infoStats[0]], before any agent
    is started. *)
Theorem Initialize_empty_cpu_Info_panics (env : Env) (host : Host)
    (fuel ticks : nat) (hn : HostNode)
    (BTFSVersion hValue : string) (a : Agent) (c : Config) :
  env_Config env (n_Config (calls a)) = (Some c, None) ->
  Analytics c = true ->
  host_cpu_Info host = ([], None) ->
  fst (Initialize env host (Some hn) BTFSVersion hValue a) = Panic index_out_of_range
  /\ fst (InitializeAndRun env host fuel ticks (Some hn) BTFSVersion hValue a)
     = Panic index_out_of_range.
Proof.
  intros Hc Hflag Hcpu.
  assert (Hinit : fst (Initialize env host (Some hn) BTFSVersion hValue a)
                  = Panic index_out_of_range).
  { unfold Initialize. unfold_go. cbn. rewrite Hc. cbn. rewrite Hflag, Hcpu.
    reflexivity. }
  split; [exact Hinit |].
  unfold InitializeAndRun. unfold bind at 1.
  destruct (Initialize env host (Some hn) BTFSVersion hValue a) as [o a1].
  cbn in Hinit. subst o. reflexivity.
Qed.

Lemma Initialize_empty_cpu_Info_panics_witness :
  fst (Initialize env_healthy host_without_cpu_info (Some sample_HostNode)
         "1.0" "h" (start dc_N1))
  = Panic index_out_of_range
  /\ fst (InitializeAndRun env_healthy host_without_cpu_info 4 1
            (Some sample_HostNode) "1.0" "h" (start dc_N1))
     = Panic index_out_of_range.
Proof.
  apply (Initialize_empty_cpu_Info_panics env_healthy host_without_cpu_info 4 1
           sample_HostNode "1.0" "h" (start dc_N1) (sample_Config true));
    reflexivity.
Defined.

(** ** getPayload: the storage capacity is best effort *)

(** A configuration read that fails, or a [StorageMax] that does not
    parse, does not fail the build: the record is serialised all the
    same, with a storage capacity of 0 and every sampled field of the
    object. *)
Theorem getPayload_capacity_best_effort (env : Env) (a : Agent) :
  (snd (env_Config env (n_Config (calls a))) <> None
   \/ exists c, fst (env_Config env (n_Config (calls a))) = Some c
                /\ snd (env_ParseBytes env (StorageMax c)) <> None) ->
  (forall nd, snd (env_proto_Marshal env nd) = None) ->
  exists nd a',
    getPayload env a = (Done (fst (env_proto_Marshal env nd), None), a')
    /\ nd_StorageVolumeCap nd = 0
    /\ reports (dc a) nd
    /\ dc a' = dc a /\ transport_untouched a a'.
Proof.
  intros Hfail Hmarshal.
  unfold getPayload. unfold_go. cbn.
  destruct (env_Config env (n_Config (calls a))) as [config [e |]]; cbn in *.
  - match goal with
    | |- context [env_proto_Marshal env ?nd] =>
        exists nd;
        specialize (Hmarshal nd);
        destruct (env_proto_Marshal env nd) as [payload err];
        cbn in Hmarshal; subst err
    end.
    eexists. split; [reflexivity | repeat split].
  - destruct Hfail as [Hnone | (c & Hsome & Hparse)]; [contradiction |].
    subst config. cbn.
    destruct (env_ParseBytes env (StorageMax c)) as [storageMax [e |]]; cbn in *;
      [| contradiction].
    match goal with
    | |- context [env_proto_Marshal env ?nd] =>
        exists nd;
        specialize (Hmarshal nd);
        destruct (env_proto_Marshal env nd) as [payload err];
        cbn in Hmarshal; subst err
    end.
    eexists. split; [reflexivity | repeat split].
Qed.

Lemma getPayload_capacity_best_effort_witness :
  exists nd a',
    getPayload env_repo_closed (set_calls bump_Config (start dc_N1))
    = (Done (fst (env_proto_Marshal env_repo_closed nd), None), a')
    /\ nd_StorageVolumeCap nd = 0
    /\ reports (dc (set_calls bump_Config (start dc_N1))) nd
    /\ dc a' = dc (set_calls bump_Config (start dc_N1))
    /\ transport_untouched (set_calls bump_Config (start dc_N1)) a'.
Proof.
  apply (getPayload_capacity_best_effort env_repo_closed
           (set_calls bump_Config (start dc_N1))).
  - left. discriminate.
  - intros nd. reflexivity.
Defined.
